(** * In-place update feasibility for KubeadmControlPlane Machines

    A shallow embedding of
    [controlplane/kubeadm/internal/controllers/inplace_canupdatemachine.go]
    and the properties of its decision functions.

    Go packages become modules, structs become records, pointers that may be
    nil become [option], a Go [(value, error)] pair becomes [result] and a
    call that may panic instead of returning lives in [go].  Code that lives
    outside the file (the JSON codec, the JSON patch library, the runtime
    client, server side apply, the diff renderer) is taken through the
    [Packages] class and the reconciler's interface fields.  Logging is left
    out. *)

From stdpp Require Import gmap strings list fin_maps pretty.
From Stdlib Require Import ZArith Ascii.
From Stdlib.Strings Require Import Byte.

Set Warnings "-register-all".

Open Scope string_scope.
Open Scope list_scope.

(** ** Go basics *)

(** [[]byte]. *)
Definition bytes : Type := list byte.

#[global] Instance byte_eq_dec : EqDecision byte := Byte.byte_eq_dec.

(** A non-nil Go [error], identified with its message. *)
Definition error : Type := string.

(** A Go [(T, error)] return pair: the value is only meaningful when the
    error is nil. *)
Inductive result (A : Type) : Type :=
| Ok (a : A)
| Err (e : error).
Arguments Ok {A} a.
Arguments Err {A} e.

#[global] Instance result_ret : MRet result := fun _ a => Ok a.
#[global] Instance result_bind : MBind result := fun _ _ k m =>
  match m with
  | Ok a => k a
  | Err e => Err e
  end.

(** A call that either returns or panics with a value (printed with [%v]). *)
Inductive go (A : Type) : Type :=
| Return (a : A)
| Panic (v : string).
Arguments Return {A} a.
Arguments Panic {A} v.

#[global] Instance go_ret : MRet go := fun _ a => Return a.
#[global] Instance go_bind : MBind go := fun _ _ k m =>
  match m with
  | Return a => k a
  | Panic v => Panic v
  end.

(** Dereferencing a pointer. *)
Definition deref {A : Type} (p : option A) : go A :=
  match p with
  | Some a => Return a
  | None => Panic "runtime error: invalid memory address or nil pointer dereference"
  end.

(** [p == nil] *)
Definition isNil {A : Type} (p : option A) : bool :=
  match p with
  | None => true
  | Some _ => false
  end.

(** [strings.Join(elems, sep)] *)
Definition strings_Join (elems : list string) (sep : string) : string :=
  String.concat sep elems.

(** A Go map that may be nil. *)
Definition stringMap : Type := option (gmap string string).

Module errors.
(** [errors.Errorf] with the format already expanded. *)
Definition Errorf (msg : string) : error := msg.
(** [errors.Wrap(err, msg)] / [errors.Wrapf]. *)
Definition Wrap (err : error) (msg : string) : error := msg +:+ ": " +:+ err.

(** [if err != nil { return ..., errors.Wrap(err, msg) }] *)
Definition wrapped {A : Type} (r : result A) (msg : string) : result A :=
  match r with
  | Ok a => Ok a
  | Err err => Err (Wrap err msg)
  end.
End errors.

Module kerrors.
(** [kerrors.NewAggregate]: nil entries are dropped; no entry left means a
    nil error, one entry reads as that error. *)
Definition NewAggregate (errlist : list (option error)) : option error :=
  match omap id errlist with
  | [] => None
  | [e] => Some e
  | es => Some ("[" +:+ strings_Join es ", " +:+ "]")
  end.
End kerrors.

(** ** Semi-structured documents *)

(** What [encoding/json] decodes into an [interface{}]; the numbers are
    integers here, the functions below compute with none. *)
Inductive JSON : Type :=
| JNull
| JBool (b : bool)
| JNumber (z : Z)
| JString (s : string)
| JArray (xs : list JSON)
| JObject (m : gmap string JSON).

Module unstructured.
(** [unstructured.Unstructured]: [Object map[string]interface{}]. *)
Record Unstructured : Type := mk { Object : gmap string JSON }.

(** [m[key]] on a [map[string]interface{}]: a missing key reads as nil. *)
Definition index (m : gmap string JSON) (key : string) : JSON :=
  default JNull (m !! key).

Definition NestedFieldNoCopy (m : gmap string JSON) (f1 f2 : string) : option JSON :=
  match m !! f1 with
  | Some (JObject inner) => inner !! f2
  | _ => None
  end.

Definition NestedString (m : gmap string JSON) (f1 f2 : string) : string :=
  match NestedFieldNoCopy m f1 f2 with
  | Some (JString s) => s
  | _ => ""
  end.

Definition asString (v : JSON) : option string :=
  match v with JString s => Some s | _ => None end.

(** [NestedStringMap]: nil unless the field is a map of strings. *)
Definition NestedStringMap (m : gmap string JSON) (f1 f2 : string) : stringMap :=
  match NestedFieldNoCopy m f1 f2 with
  | Some (JObject inner) =>
      if bool_decide (map_Forall (fun _ v => is_Some (asString v)) inner)
      then Some (omap asString inner)
      else None
  | _ => None
  end.

(** [SetNestedField]: intermediate maps are created; a non-map in the way
    is an error, which the [Unstructured] setters drop. *)
Definition SetNestedField (m : gmap string JSON) (v : JSON) (f1 f2 : string)
  : gmap string JSON :=
  match m !! f1 with
  | Some (JObject inner) => <[f1 := JObject (<[f2 := v]> inner)]> m
  | Some _ => m
  | None => <[f1 := JObject {[f2 := v]}]> m
  end.

Definition RemoveNestedField (m : gmap string JSON) (f1 f2 : string)
  : gmap string JSON :=
  match m !! f1 with
  | Some (JObject inner) => <[f1 := JObject (delete f2 inner)]> m
  | _ => m
  end.

Definition topString (u : Unstructured) (key : string) : string :=
  match Object u !! key with
  | Some (JString s) => s
  | _ => ""
  end.

Definition GetAPIVersion (u : Unstructured) : string := topString u "apiVersion".
Definition GetKind (u : Unstructured) : string := topString u "kind".
Definition GetName (u : Unstructured) : string :=
  NestedString (Object u) "metadata" "name".
Definition GetNamespace (u : Unstructured) : string :=
  NestedString (Object u) "metadata" "namespace".
Definition GetLabels (u : Unstructured) : stringMap :=
  NestedStringMap (Object u) "metadata" "labels".
Definition GetAnnotations (u : Unstructured) : stringMap :=
  NestedStringMap (Object u) "metadata" "annotations".

Definition setString (u : Unstructured) (field value : string) : Unstructured :=
  if bool_decide (value = "")
  then mk (RemoveNestedField (Object u) "metadata" field)
  else mk (SetNestedField (Object u) (JString value) "metadata" field).

Definition setStringMap (u : Unstructured) (field : string) (value : stringMap)
  : Unstructured :=
  match value with
  | None => mk (RemoveNestedField (Object u) "metadata" field)
  | Some kv => mk (SetNestedField (Object u) (JObject (JString <$> kv)) "metadata" field)
  end.

Definition SetName (u : Unstructured) (name : string) := setString u "name" name.
Definition SetNamespace (u : Unstructured) (ns : string) := setString u "namespace" ns.
Definition SetLabels (u : Unstructured) (l : stringMap) := setStringMap u "labels" l.
Definition SetAnnotations (u : Unstructured) (a : stringMap) :=
  setStringMap u "annotations" a.
End unstructured.

Module metav1.
Record TypeMeta : Type := mkTypeMeta {
  APIVersion : string;
  Kind : string;
}.

(** The fields this file reads, and three of those it drops. *)
Record ObjectMeta : Type := mkObjectMeta {
  Name : string;
  Namespace : string;
  Labels : stringMap;
  Annotations : stringMap;
  UID : string;
  ResourceVersion : string;
  Finalizers : list string;
}.

Definition SetLabels (m : ObjectMeta) (labels : stringMap) : ObjectMeta :=
  mkObjectMeta (Name m) (Namespace m) labels (Annotations m)
               (UID m) (ResourceVersion m) (Finalizers m).
Definition SetAnnotations (m : ObjectMeta) (annotations : stringMap) : ObjectMeta :=
  mkObjectMeta (Name m) (Namespace m) (Labels m) annotations
               (UID m) (ResourceVersion m) (Finalizers m).

Definition zeroTypeMeta : TypeMeta := mkTypeMeta "" "".
Definition zeroObjectMeta : ObjectMeta := mkObjectMeta "" "" None None "" "" [].
End metav1.

(** The API types whose declarations live in other packages.  A type of
    which this file builds a zero value comes with it, and each API group
    with what its [GroupVersion.String()] returns. *)
Class APITypes : Type := {
  MachineSpec : Type;
  MachineStatus : Type;
  zeroMachineStatus : MachineStatus;
  MachineGroupVersion : string;
  KubeadmConfigSpec : Type;
  KubeadmConfigStatus : Type;
  zeroKubeadmConfigStatus : KubeadmConfigStatus;
  KubeadmConfigGroupVersion : string;
  (** [jsonpatch.Operation] *)
  Operation : Type;
  (** [client.Client] *)
  Client : Type;
}.

Module clusterv1.
Section Types.
Context {T : APITypes}.

Record Machine : Type := mkMachine {
  TypeMeta : metav1.TypeMeta;
  ObjectMeta : metav1.ObjectMeta;
  Spec : MachineSpec;
  Status : MachineStatus;
}.
End Types.
End clusterv1.

Module bootstrapv1.
Section Types.
Context {T : APITypes}.

Record KubeadmConfig : Type := mkKubeadmConfig {
  TypeMeta : metav1.TypeMeta;
  ObjectMeta : metav1.ObjectMeta;
  Spec : KubeadmConfigSpec;
  Status : KubeadmConfigStatus;
}.

Definition GetLabels (k : KubeadmConfig) : stringMap :=
  metav1.Labels (ObjectMeta k).
Definition GetAnnotations (k : KubeadmConfig) : stringMap :=
  metav1.Annotations (ObjectMeta k).
Definition SetLabels (k : KubeadmConfig) (labels : stringMap) : KubeadmConfig :=
  mkKubeadmConfig (TypeMeta k) (metav1.SetLabels (ObjectMeta k) labels)
                  (Spec k) (Status k).
Definition SetAnnotations (k : KubeadmConfig) (annotations : stringMap)
  : KubeadmConfig :=
  mkKubeadmConfig (TypeMeta k) (metav1.SetAnnotations (ObjectMeta k) annotations)
                  (Spec k) (Status k).
End Types.
End bootstrapv1.

Module runtime.
Section Types.
Context {T : APITypes}.

(** The dynamic types a [runtime.Object] takes in this file. *)
Inductive Object_ : Type :=
| OfMachine (m : clusterv1.Machine)
| OfKubeadmConfig (k : bootstrapv1.KubeadmConfig)
| OfUnstructured (u : unstructured.Unstructured).

(** [runtime.RawExtension]: [Raw []byte] and [Object runtime.Object]. *)
Record RawExtension : Type := mkRawExtension {
  Raw : bytes;
  Object : option Object_;
}.

Definition zeroRawExtension : RawExtension := mkRawExtension [] None.

(** [obj.GetObjectKind().GroupVersionKind().Kind]; a method call on a
    nil interface panics. *)
Definition Kind (o : option Object_) : go string :=
  obj ← deref o;
  Return match obj with
       | OfMachine m => metav1.Kind (clusterv1.TypeMeta m)
       | OfKubeadmConfig k => metav1.Kind (bootstrapv1.TypeMeta k)
       | OfUnstructured u => unstructured.GetKind u
       end.
End Types.
End runtime.

Module runtimehooksv1.
Inductive Hook : Type := CanUpdateMachine.

Definition PatchType : Type := string.

(** Modelled from the spec: the two [PatchType] constants are declared in the
    hooks API, not in this file; a patch carries
    "patchType ∈ {JSONPatch, JSONMergePatch}". *)
Definition JSONPatchType : PatchType := "JSONPatch".
Definition JSONMergePatchType : PatchType := "JSONMergePatch".

(** [runtimehooksv1.Patch]; the payload field [Patch] is [Patch_] here,
    the record already has that name. *)
Record Patch : Type := mkPatch {
  PatchType_ : PatchType;
  Patch_ : bytes;
}.

Section Types.
Context {T : APITypes}.

Record CanUpdateMachineRequestObjects : Type := mkObjects {
  Machine : clusterv1.Machine;
  BootstrapConfig : runtime.RawExtension;
  InfrastructureMachine : runtime.RawExtension;
}.

Record CanUpdateMachineRequest : Type := mkRequest {
  Current : CanUpdateMachineRequestObjects;
  Desired : CanUpdateMachineRequestObjects;
}.

Record CanUpdateMachineResponse : Type := mkResponse {
  MachinePatch : Patch;
  BootstrapConfigPatch : Patch;
  InfrastructureMachinePatch : Patch;
}.
End Types.
End runtimehooksv1.

Module internal.
Section Types.
Context {T : APITypes}.

(** The five objects of [internal.UpToDateResult] this file reads. *)
Record UpToDateResult : Type := mkUpToDateResult {
  DesiredMachine : option clusterv1.Machine;
  CurrentInfraMachine : option unstructured.Unstructured;
  DesiredInfraMachine : option unstructured.Unstructured;
  CurrentKubeadmConfig : option bootstrapv1.KubeadmConfig;
  DesiredKubeadmConfig : option bootstrapv1.KubeadmConfig;
}.
End Types.
End internal.

(** ** Collaborators *)

(** Functions of other packages, as this file calls them. *)
Class Packages {T : APITypes} : Type := {
  (** [encoding/json] *)
  json_Marshal : runtime.Object_ -> result bytes;
  json_Unmarshal_Unstructured : bytes -> result unstructured.Unstructured;
  json_Unmarshal_Machine : bytes -> result clusterv1.Machine;
  (** [github.com/evanphx/json-patch/v5] *)
  jsonpatch_DecodePatch : bytes -> go (result (list Operation));
  jsonpatch_Apply : list Operation -> bytes -> go (result bytes);
  jsonpatch_MergePatch : bytes -> bytes -> go (result bytes);
  (** [compare.Diff] *)
  compare_Diff : runtime.Object_ -> runtime.Object_ -> bool * string * option error;
  (** [ssa.Patch(ctx, c, kcpManagerName, obj, ssa.WithDryRun{})]: the object
      as the API server would store it. *)
  ssa_Patch_Machine : Client -> clusterv1.Machine -> result clusterv1.Machine;
  ssa_Patch_Unstructured :
    Client -> unstructured.Unstructured -> result unstructured.Unstructured;
  (** [internal.PrepareKubeadmConfigsForDiff(desired, current, true)] *)
  PrepareKubeadmConfigsForDiff :
    bootstrapv1.KubeadmConfig -> bootstrapv1.KubeadmConfig -> bool ->
    bootstrapv1.KubeadmConfig * bootstrapv1.KubeadmConfig;
  (** The [IsDefined] method of [runtimehooksv1.Patch] *)
  IsDefined : runtimehooksv1.Patch -> bool;
}.

(** [feature.Gates], read through [Enabled(feature.InPlaceUpdates)]. *)
Record FeatureGate : Type := mkFeatureGate { InPlaceUpdates : bool }.

Section Reconciler.
Context {T : APITypes}.

(** The two methods of the runtime client interface this file calls. *)
Record RuntimeClient_ : Type := mkRuntimeClient {
  GetAllExtensions :
    runtimehooksv1.Hook -> clusterv1.Machine -> result (list string);
  CallExtension :
    runtimehooksv1.Hook -> clusterv1.Machine -> string ->
    runtimehooksv1.CanUpdateMachineRequest ->
    result runtimehooksv1.CanUpdateMachineResponse;
}.

Record KubeadmControlPlaneReconciler : Type := mkReconciler {
  Client_ : Client;
  RuntimeClient : RuntimeClient_;
  overrideCanUpdateMachineFunc :
    option (clusterv1.Machine -> internal.UpToDateResult -> bool * option error);
  overrideCanExtensionsUpdateMachine :
    option (clusterv1.Machine -> internal.UpToDateResult -> list string ->
            bool * list string * option error);
}.

(** What an evaluation does that its result does not show: a call of
    [CallExtension] with the handler and the request it is sent, and a
    convergence check [matchesMachine] with the request it looks at. *)
Inductive Event : Type :=
| Called (extensionHandler : string) (req : runtimehooksv1.CanUpdateMachineRequest)
| Checked (req : runtimehooksv1.CanUpdateMachineRequest).

(** The calls of [CallExtension], in order: the handler and the request it
    is sent. *)
Definition calls (trace : list Event)
  : list (string * runtimehooksv1.CanUpdateMachineRequest) :=
  omap (fun e => match e with Called h req => Some (h, req) | Checked _ => None end)
       trace.

(** The handlers invoked, in order. *)
Definition invoked (trace : list Event) : list string := (calls trace).*1.

(** The requests the handlers were sent and the checks looked at. *)
Definition subject (e : Event) : runtimehooksv1.CanUpdateMachineRequest :=
  match e with
  | Called _ req => req
  | Checked req => req
  end.
End Reconciler.

Module patchutil.
Section PatchSpec.
Context {T : APITypes} {P : Packages}.

(** Modelled from the spec: [patchutil.PatchSpec] is not part of this
    file.  "Only the spec subtree of the patched result is copied back
    into the target document; all other fields of the target are left
    untouched", the serialized and the structured form are re-derived
    together, and "the target is only mutated on confirmed success".
    A patched result without a spec is taken as a failure. *)
Definition PatchSpec (obj : runtime.RawExtension) (patchedObjectBytes : bytes)
  : runtime.RawExtension * option error :=
  match json_Unmarshal_Unstructured (runtime.Raw obj) with
  | Err err => (obj, Some (errors.Wrap err "failed to convert object to Unstructured"))
  | Ok object =>
      match json_Unmarshal_Unstructured patchedObjectBytes with
      | Err err =>
          (obj, Some (errors.Wrap err "failed to convert patched object to Unstructured"))
      | Ok patchedObject =>
          match unstructured.Object patchedObject !! "spec" with
          | None => (obj, Some (errors.Errorf "missing field spec in patched object"))
          | Some spec =>
              let object :=
                unstructured.mk (<["spec" := spec]> (unstructured.Object object)) in
              match json_Marshal (runtime.OfUnstructured object) with
              | Err err => (obj, Some (errors.Wrap err "failed to marshal patched object"))
              | Ok objectBytes =>
                  (runtime.mkRawExtension objectBytes
                     (Some (runtime.OfUnstructured object)), None)
              end
          end
      end
  end.
End PatchSpec.
End patchutil.

(** ** The controller functions *)

Module controllers.
Section Controllers.
Context {T : APITypes} {P : Packages}.

Definition cleanupMachine (machine : clusterv1.Machine) : clusterv1.Machine :=
  clusterv1.mkMachine
    (metav1.mkTypeMeta MachineGroupVersion "Machine")
    (metav1.mkObjectMeta
       (metav1.Name (clusterv1.ObjectMeta machine))
       (metav1.Namespace (clusterv1.ObjectMeta machine))
       (metav1.Labels (clusterv1.ObjectMeta machine))
       (metav1.Annotations (clusterv1.ObjectMeta machine))
       "" "" [])
    (clusterv1.Spec machine)
    zeroMachineStatus.

Definition cleanupKubeadmConfig (kubeadmConfig : bootstrapv1.KubeadmConfig)
  : bootstrapv1.KubeadmConfig :=
  bootstrapv1.mkKubeadmConfig
    (metav1.mkTypeMeta KubeadmConfigGroupVersion "KubeadmConfig")
    (metav1.mkObjectMeta
       (metav1.Name (bootstrapv1.ObjectMeta kubeadmConfig))
       (metav1.Namespace (bootstrapv1.ObjectMeta kubeadmConfig))
       (metav1.Labels (bootstrapv1.ObjectMeta kubeadmConfig))
       (metav1.Annotations (bootstrapv1.ObjectMeta kubeadmConfig))
       "" "" [])
    (bootstrapv1.Spec kubeadmConfig)
    zeroKubeadmConfigStatus.

Definition cleanupUnstructured (u : unstructured.Unstructured)
  : unstructured.Unstructured :=
  let cleanedUpU :=
    unstructured.mk
      (<["apiVersion" := JString (unstructured.GetAPIVersion u)]>
         (<["kind" := JString (unstructured.GetKind u)]>
            {["spec" := unstructured.index (unstructured.Object u) "spec"]})) in
  let cleanedUpU := unstructured.SetName cleanedUpU (unstructured.GetName u) in
  let cleanedUpU := unstructured.SetNamespace cleanedUpU (unstructured.GetNamespace u) in
  let cleanedUpU := unstructured.SetLabels cleanedUpU (unstructured.GetLabels u) in
  let cleanedUpU :=
    unstructured.SetAnnotations cleanedUpU (unstructured.GetAnnotations u) in
  cleanedUpU.

Definition convertToRawExtension (object : runtime.Object_)
  : result runtime.RawExtension :=
  objectBytes ← errors.wrapped (json_Marshal object) "failed to marshal object to JSON";
  objectUnstructured ←
    match object with
    | runtime.OfUnstructured u => Ok u
    | _ => errors.wrapped (json_Unmarshal_Unstructured objectBytes)
             "failed to Unmarshal object into Unstructured"
    end;
  Ok (runtime.mkRawExtension objectBytes
        (Some (runtime.OfUnstructured objectUnstructured))).

(** What [applyPatchToObject] leaves behind: the object behind [obj] and
    the two named results. *)
Definition applied : Type := runtime.RawExtension * (bool * option error).

(** Lines 386-392: only the spec of the patched copy goes back into
    [obj]. *)
Definition overwriteSpec (obj : runtime.RawExtension) (patchedObject : bytes)
  : applied :=
  match patchutil.PatchSpec obj patchedObject with
  | (obj, Some err) =>
      (obj, (false, Some (errors.Wrap err "failed to apply patch to object")))
  | (obj, None) => (obj, (true, None))
  end.

(** The statements of [applyPatchToObject] after the [defer]; the patches
    are applied to a copy of [obj.Raw]. *)
Definition applyPatchToObject_deferred
    (obj : runtime.RawExtension) (patch : runtimehooksv1.Patch) : go applied :=
  let patchedObject := runtime.Raw obj in
  if bool_decide (runtimehooksv1.PatchType_ patch = runtimehooksv1.JSONPatchType)
  then
    decoded ← jsonpatch_DecodePatch (runtimehooksv1.Patch_ patch);
    match decoded with
    | Err err =>
        Return (obj, (false, Some (errors.Wrap err
          "failed to apply patch: error decoding json patch (RFC6902)")))
    | Ok jsonPatch =>
        if bool_decide (length jsonPatch = 0)
        then Return (obj, (false, None))
        else
          patched ← jsonpatch_Apply jsonPatch patchedObject;
          match patched with
          | Err err =>
              Return (obj, (false, Some (errors.Wrap err
                "failed to apply patch: error applying json patch (RFC6902)")))
          | Ok patchedObject => Return (overwriteSpec obj patchedObject)
          end
    end
  else if bool_decide
            (runtimehooksv1.PatchType_ patch = runtimehooksv1.JSONMergePatchType)
  then
    if bool_decide (length (runtimehooksv1.Patch_ patch) = 0)
       || bool_decide (runtimehooksv1.Patch_ patch = String.list_byte_of_string "{}")
    then Return (obj, (false, None))
    else
      patched ← jsonpatch_MergePatch patchedObject (runtimehooksv1.Patch_ patch);
      match patched with
      | Err err =>
          Return (obj, (false, Some (errors.Wrap err
            "failed to apply patch: error applying json merge patch (RFC7386)")))
      | Ok patchedObject => Return (overwriteSpec obj patchedObject)
      end
  else
    Return (obj, (false, Some (errors.Errorf
      ("failed to apply patch: unknown patchType " +:+
       runtimehooksv1.PatchType_ patch)))).

(** The copy of [obj.Raw] after the patch library has been through it, when
    the library returned one: the patched intermediate result. *)
Definition patchedIntermediate
    (obj : runtime.RawExtension) (patch : runtimehooksv1.Patch)
    (patchedObject : bytes) : Prop :=
  (runtimehooksv1.PatchType_ patch = runtimehooksv1.JSONPatchType /\
   exists jsonPatch,
     jsonpatch_DecodePatch (runtimehooksv1.Patch_ patch) = Return (Ok jsonPatch) /\
     jsonPatch <> [] /\
     jsonpatch_Apply jsonPatch (runtime.Raw obj) = Return (Ok patchedObject))
  \/
  (runtimehooksv1.PatchType_ patch = runtimehooksv1.JSONMergePatchType /\
   runtimehooksv1.Patch_ patch <> [] /\
   runtimehooksv1.Patch_ patch <> String.list_byte_of_string "{}" /\
   jsonpatch_MergePatch (runtime.Raw obj) (runtimehooksv1.Patch_ patch)
   = Return (Ok patchedObject)).

(** The deferred function: a panic leaves the named results at their
    values so far, [objChanged = false] and [reterr = nil], and sets
    [reterr] to the aggregate. *)
Definition recovered (obj : runtime.RawExtension) (run : go applied) : applied :=
  match run with
  | Return done => done
  | Panic r =>
      (obj, (false, kerrors.NewAggregate
                      [None; Some ("observed a panic when applying patch: " +:+ r)]))
  end.

Definition applyPatchToObject
    (obj : runtime.RawExtension) (patch : runtimehooksv1.Patch) : applied :=
  if bool_decide (runtimehooksv1.PatchType_ patch = "")
  then (obj, (false, Some (errors.Errorf "failed to apply patch: patchType is not set")))
  else recovered obj (applyPatchToObject_deferred obj patch).

Definition applyPatchToMachine
    (currentMachine : clusterv1.Machine) (machinePath : runtimehooksv1.Patch)
  : clusterv1.Machine * option error :=
  match convertToRawExtension (runtime.OfMachine currentMachine) with
  | Err err => (currentMachine, Some err)
  | Ok currentMachineRaw =>
      match applyPatchToObject currentMachineRaw machinePath with
      | (_, (_, Some err)) => (currentMachine, Some err)
      | (currentMachineRaw, (machineChanged, None)) =>
          if negb machineChanged then (currentMachine, None)
          else
            match json_Unmarshal_Machine (runtime.Raw currentMachineRaw) with
            | Err err => (currentMachine, Some err)
            | Ok patchedCurrentMachine => (patchedCurrentMachine, None)
            end
      end
  end.

(** Assignments through [&req.Current.X].  Values are enough for them: each
    write replaces a field of [req.Current] as a whole (line 325, and the two
    fields of a RawExtension), the patch library works on a clone of
    [obj.Raw], and nothing is written through a pointer the desired side
    could share. *)
Definition setCurrentMachine (req : runtimehooksv1.CanUpdateMachineRequest)
    (m : clusterv1.Machine) : runtimehooksv1.CanUpdateMachineRequest :=
  let cur := runtimehooksv1.Current req in
  runtimehooksv1.mkRequest
    (runtimehooksv1.mkObjects m (runtimehooksv1.BootstrapConfig cur)
       (runtimehooksv1.InfrastructureMachine cur))
    (runtimehooksv1.Desired req).

Definition setCurrentBootstrapConfig (req : runtimehooksv1.CanUpdateMachineRequest)
    (o : runtime.RawExtension) : runtimehooksv1.CanUpdateMachineRequest :=
  let cur := runtimehooksv1.Current req in
  runtimehooksv1.mkRequest
    (runtimehooksv1.mkObjects (runtimehooksv1.Machine cur) o
       (runtimehooksv1.InfrastructureMachine cur))
    (runtimehooksv1.Desired req).

Definition setCurrentInfrastructureMachine
    (req : runtimehooksv1.CanUpdateMachineRequest)
    (o : runtime.RawExtension) : runtimehooksv1.CanUpdateMachineRequest :=
  let cur := runtimehooksv1.Current req in
  runtimehooksv1.mkRequest
    (runtimehooksv1.mkObjects (runtimehooksv1.Machine cur)
       (runtimehooksv1.BootstrapConfig cur) o)
    (runtimehooksv1.Desired req).

(** [req] is a pointer: the request comes back as the call left it, also
    when the call fails half way. *)
Definition applyPatchesToRequest
    (req : runtimehooksv1.CanUpdateMachineRequest)
    (resp : runtimehooksv1.CanUpdateMachineResponse)
  : runtimehooksv1.CanUpdateMachineRequest * option error :=
  let '(req, err) :=
    if IsDefined (runtimehooksv1.MachinePatch resp)
    then
      let '(m, err) :=
        applyPatchToMachine
          (runtimehooksv1.Machine (runtimehooksv1.Current req))
          (runtimehooksv1.MachinePatch resp) in
      (setCurrentMachine req m, err)
    else (req, None) in
  match err with
  | Some err => (req, Some err)
  | None =>
      let '(req, err) :=
        if IsDefined (runtimehooksv1.BootstrapConfigPatch resp)
        then
          let '(o, (_, err)) :=
            applyPatchToObject
              (runtimehooksv1.BootstrapConfig (runtimehooksv1.Current req))
              (runtimehooksv1.BootstrapConfigPatch resp) in
          (setCurrentBootstrapConfig req o, err)
        else (req, None) in
      match err with
      | Some err => (req, Some err)
      | None =>
          let '(req, err) :=
            if IsDefined (runtimehooksv1.InfrastructureMachinePatch resp)
            then
              let '(o, (_, err)) :=
                applyPatchToObject
                  (runtimehooksv1.InfrastructureMachine (runtimehooksv1.Current req))
                  (runtimehooksv1.InfrastructureMachinePatch resp) in
              (setCurrentInfrastructureMachine req o, err)
            else (req, None) in
          match err with
          | Some err => (req, Some err)
          | None => (req, None)
          end
      end
  end.

(** [&clusterv1.Machine{Spec: spec}] *)
Definition machineOfSpec (spec : MachineSpec) : clusterv1.Machine :=
  clusterv1.mkMachine metav1.zeroTypeMeta metav1.zeroObjectMeta spec zeroMachineStatus.

Definition matchesMachineSpec (patched desired : clusterv1.Machine)
  : bool * string * option error :=
  compare_Diff
    (runtime.OfMachine (machineOfSpec (clusterv1.Spec patched)))
    (runtime.OfMachine (machineOfSpec (clusterv1.Spec desired))).

(** [&unstructured.Unstructured{Object: map[string]interface{}{"spec": ...}}] *)
Definition unstructuredOfSpec (u : unstructured.Unstructured)
  : unstructured.Unstructured :=
  unstructured.mk {["spec" := unstructured.index (unstructured.Object u) "spec"]}.

Definition matchesUnstructuredSpec (patched desired : runtime.RawExtension)
  : bool * string * option error :=
  match runtime.Object patched with
  | Some (runtime.OfUnstructured patchedUnstructured) =>
      match runtime.Object desired with
      | Some (runtime.OfUnstructured desiredUnstructured) =>
          compare_Diff
            (runtime.OfUnstructured (unstructuredOfSpec patchedUnstructured))
            (runtime.OfUnstructured (unstructuredOfSpec desiredUnstructured))
      | _ => (false, "", Some (errors.Errorf "desired object is not an Unstructured"))
      end
  | _ => (false, "", Some (errors.Errorf "patched object is not an Unstructured"))
  end.

Definition matchesMachine (req : runtimehooksv1.CanUpdateMachineRequest)
  : go (bool * list string * option error) :=
  let current := runtimehooksv1.Current req in
  let desired := runtimehooksv1.Desired req in
  let reasons : list string := [] in
  let '(match_, diff, err) :=
    matchesMachineSpec (runtimehooksv1.Machine current)
                       (runtimehooksv1.Machine desired) in
  match err with
  | Some err => Return (false, [], Some (errors.Wrap err "failed to match Machine"))
  | None =>
  let reasons :=
    if match_ then reasons
    else reasons ++ ["Machine cannot be updated in-place: " +:+ diff] in
  let '(match_, diff, err) :=
    matchesUnstructuredSpec (runtimehooksv1.BootstrapConfig current)
                            (runtimehooksv1.BootstrapConfig desired) in
  match err with
  | Some err => Return (false, [], Some (errors.Wrap err "failed to match KubeadmConfig"))
  | None =>
  let reasons :=
    if match_ then reasons
    else reasons ++ ["KubeadmConfig cannot be updated in-place: " +:+ diff] in
  let '(match_, diff, err) :=
    matchesUnstructuredSpec (runtimehooksv1.InfrastructureMachine current)
                            (runtimehooksv1.InfrastructureMachine desired) in
  match err with
  | Some err =>
      kind ← runtime.Kind (runtime.Object (runtimehooksv1.InfrastructureMachine current));
      Return (false, [], Some (errors.Wrap err ("failed to match " +:+ kind)))
  | None =>
  reasons ←
    (if match_ then Return reasons
     else
       kind ← runtime.Kind
                (runtime.Object (runtimehooksv1.InfrastructureMachine current));
       Return (reasons ++ [kind +:+ " cannot be updated in-place: " +:+ diff]));
  if bool_decide (0 < length reasons)
  then Return (false, reasons, None)
  else Return (true, [], None)
  end end end.

(** The objects are copied with [DeepCopy] first, so the inputs are never
    mutated; a nil one among the five panics at its first use. *)
Definition createRequest (c : Client) (currentMachine : clusterv1.Machine)
    (machineUpToDateResult : internal.UpToDateResult)
  : go (result runtimehooksv1.CanUpdateMachineRequest) :=
  let currentMachineForDiff := currentMachine in
  currentKubeadmConfigForDiff ←
    deref (internal.CurrentKubeadmConfig machineUpToDateResult);
  currentInfraMachineForDiff ←
    deref (internal.CurrentInfraMachine machineUpToDateResult);
  desiredMachineForDiff ← deref (internal.DesiredMachine machineUpToDateResult);
  desiredKubeadmConfigForDiff ←
    deref (internal.DesiredKubeadmConfig machineUpToDateResult);
  desiredInfraMachineForDiff ←
    deref (internal.DesiredInfraMachine machineUpToDateResult);
  (* Sync in-place mutable changes from desired to current. *)
  let currentKubeadmConfigForDiff :=
    bootstrapv1.SetLabels currentKubeadmConfigForDiff
      (bootstrapv1.GetLabels desiredKubeadmConfigForDiff) in
  let currentKubeadmConfigForDiff :=
    bootstrapv1.SetAnnotations currentKubeadmConfigForDiff
      (bootstrapv1.GetAnnotations desiredKubeadmConfigForDiff) in
  let currentInfraMachineForDiff :=
    unstructured.SetLabels currentInfraMachineForDiff
      (unstructured.GetLabels desiredInfraMachineForDiff) in
  let currentInfraMachineForDiff :=
    unstructured.SetAnnotations currentInfraMachineForDiff
      (unstructured.GetAnnotations desiredInfraMachineForDiff) in
  Return (
    (* Apply defaulting. *)
    desiredMachineForDiff ←
      errors.wrapped (ssa_Patch_Machine c desiredMachineForDiff)
        "server side apply dry-run failed for desired Machine";
    currentInfraMachineForDiff ←
      errors.wrapped (ssa_Patch_Unstructured c currentInfraMachineForDiff)
        "server side apply dry-run failed for current InfraMachine";
    desiredInfraMachineForDiff ←
      errors.wrapped (ssa_Patch_Unstructured c desiredInfraMachineForDiff)
        "server side apply dry-run failed for desired InfraMachine";
    let '(desiredKubeadmConfigForDiff, currentKubeadmConfigForDiff) :=
      PrepareKubeadmConfigsForDiff
        desiredKubeadmConfigForDiff currentKubeadmConfigForDiff true in
    (* Cleanup objects and create request. *)
    currentBootstrapConfig ←
      convertToRawExtension
        (runtime.OfKubeadmConfig (cleanupKubeadmConfig currentKubeadmConfigForDiff));
    desiredBootstrapConfig ←
      convertToRawExtension
        (runtime.OfKubeadmConfig (cleanupKubeadmConfig desiredKubeadmConfigForDiff));
    currentInfrastructureMachine ←
      convertToRawExtension
        (runtime.OfUnstructured (cleanupUnstructured currentInfraMachineForDiff));
    desiredInfrastructureMachine ←
      convertToRawExtension
        (runtime.OfUnstructured (cleanupUnstructured desiredInfraMachineForDiff));
    Ok (runtimehooksv1.mkRequest
          (runtimehooksv1.mkObjects (cleanupMachine currentMachineForDiff)
             currentBootstrapConfig currentInfrastructureMachine)
          (runtimehooksv1.mkObjects (cleanupMachine desiredMachineForDiff)
             desiredBootstrapConfig desiredInfrastructureMachine))).

(** What a decision function does: its return values or a panic, and the
    events on the way. *)
Definition run (A : Type) : Type := go A * list Event.

(** How one iteration of the [for] statement ends: with a [return] (or a
    panic), or by falling through to the next handler with the request
    and the [reasons] variable as the iteration left them. *)
Inductive iteration : Type :=
| Leaves (out : go (bool * list string * option error))
| Continues (req : runtimehooksv1.CanUpdateMachineRequest) (reasons : list string).

(** The body of the [for] statement of [canExtensionsUpdateMachine]. *)
Definition canExtensionsUpdateMachine_body
    (rc : RuntimeClient_) (machine : clusterv1.Machine)
    (extensionHandler : string) (req : runtimehooksv1.CanUpdateMachineRequest)
  : iteration * list Event :=
  let called := Called extensionHandler req in
  match CallExtension rc runtimehooksv1.CanUpdateMachine machine
          extensionHandler req with
  | Err err => (Leaves (Return (false, [], Some err)), [called])
  | Ok resp =>
      match applyPatchesToRequest req resp with
      | (_, Some err) =>
          (Leaves (Return (false, [], Some (errors.Wrap err
             ("failed to apply patches from extension " +:+ extensionHandler
              +:+ " to the CanUpdateMachine request")))), [called])
      | (req, None) =>
          let trace := [called; Checked req] in
          match matchesMachine req with
          | Panic v => (Leaves (Panic v), trace)
          | Return (_, _, Some err) =>
              (Leaves (Return (false, [], Some (errors.Wrap err
                 ("failed to compare current and desired objects after calling extension "
                  +:+ extensionHandler)))), trace)
          | Return (matches, reasons, None) =>
              if matches then (Leaves (Return (true, [], None)), trace)
              else (Continues req reasons, trace)
          end
      end
  end.

(** The [for] statement and the [return] after it, entered with the
    request and the [reasons] variable as they stand. *)
Fixpoint canExtensionsUpdateMachine_rounds
    (rc : RuntimeClient_) (machine : clusterv1.Machine)
    (extensionHandlers : list string)
    (req : runtimehooksv1.CanUpdateMachineRequest) (reasons : list string)
  : run (bool * list string * option error) :=
  match extensionHandlers with
  | [] => (Return (false, reasons, None), [])
  | extensionHandler :: rest =>
      match canExtensionsUpdateMachine_body rc machine extensionHandler req with
      | (Leaves out, trace) => (out, trace)
      | (Continues req reasons, trace) =>
          let '(out, trace') :=
            canExtensionsUpdateMachine_rounds rc machine rest req reasons in
          (out, trace ++ trace')
      end
  end.

(** The request and the [reasons] variable with which the iteration after
    [extensionHandlers] starts, when every iteration over
    [extensionHandlers] falls through. *)
Fixpoint canExtensionsUpdateMachine_after
    (rc : RuntimeClient_) (machine : clusterv1.Machine)
    (extensionHandlers : list string)
    (req : runtimehooksv1.CanUpdateMachineRequest) (reasons : list string)
  : option (runtimehooksv1.CanUpdateMachineRequest * list string) :=
  match extensionHandlers with
  | [] => Some (req, reasons)
  | extensionHandler :: rest =>
      match canExtensionsUpdateMachine_body rc machine extensionHandler req with
      | (Leaves _, _) => None
      | (Continues req reasons, _) =>
          canExtensionsUpdateMachine_after rc machine rest req reasons
      end
  end.

(** An installed override stands in for the whole function; what it does
    besides returning is its own, and no event of it is recorded. *)
Definition canExtensionsUpdateMachine
    (r : KubeadmControlPlaneReconciler) (machine : clusterv1.Machine)
    (machineUpToDateResult : internal.UpToDateResult)
    (extensionHandlers : list string)
  : run (bool * list string * option error) :=
  match overrideCanExtensionsUpdateMachine r with
  | Some override =>
      (Return (override machine machineUpToDateResult extensionHandlers), [])
  | None =>
      match createRequest (Client_ r) machine machineUpToDateResult with
      | Panic v => (Panic v, [])
      | Return (Err err) =>
          (Return (false, [], Some (errors.Wrap err
             "failed to generate CanUpdateMachine request")), [])
      | Return (Ok req) =>
          canExtensionsUpdateMachine_rounds
            (RuntimeClient r) machine extensionHandlers req []
      end
  end.

Definition canUpdateMachine
    (gates : FeatureGate) (r : KubeadmControlPlaneReconciler)
    (machine : clusterv1.Machine) (machineUpToDateResult : internal.UpToDateResult)
  : run (bool * option error) :=
  match overrideCanUpdateMachineFunc r with
  | Some override => (Return (override machine machineUpToDateResult), [])
  | None =>
      if negb (InPlaceUpdates gates) then (Return (false, None), [])
      else if isNil (internal.DesiredMachine machineUpToDateResult)
              || isNil (internal.CurrentInfraMachine machineUpToDateResult)
              || isNil (internal.DesiredInfraMachine machineUpToDateResult)
              || isNil (internal.CurrentKubeadmConfig machineUpToDateResult)
              || isNil (internal.DesiredKubeadmConfig machineUpToDateResult)
      then (Return (false, None), [])
      else
        match GetAllExtensions (RuntimeClient r)
                runtimehooksv1.CanUpdateMachine machine with
        | Err err => (Return (false, Some err), [])
        | Ok extensionHandlers =>
            if bool_decide (length extensionHandlers = 0)
            then (Return (false, None), [])
            else if bool_decide (1 < length extensionHandlers)
            then
              (Return (false, Some (errors.Errorf
                 ("found multiple CanUpdateMachine hooks ("
                  +:+ strings_Join extensionHandlers ","
                  +:+ ") (more than one is not supported yet)"))), [])
            else
              match canExtensionsUpdateMachine r machine machineUpToDateResult
                      extensionHandlers with
              | (Panic v, calls) => (Panic v, calls)
              | (Return (_, _, Some err), calls) => (Return (false, Some err), calls)
              | (Return (canUpdateMachine, reasons, None), calls) =>
                  if negb canUpdateMachine then (Return (false, None), calls)
                  else (Return (true, None), calls)
              end
        end
  end.
End Controllers.
End controllers.

(** ** Reference collaborators

    An instance of the collaborators to run the controller functions on: a
    JSON codec for a fragment of JSON (no escapes, no fractions), RFC 7386
    merge patches, the member operations of RFC 6902, a diff that compares
    serialized forms, and a server that defaults nothing. *)

Module reference.
(** *** JSON text *)

Definition dquote : ascii := "034"%char.
Definition quoted (s : string) : string := String dquote (s +:+ String dquote "").

Fixpoint encode (j : JSON) : string :=
  match j with
  | JNull => "null"
  | JBool true => "true"
  | JBool false => "false"
  | JNumber z => pretty z
  | JString s => quoted s
  | JArray xs => "[" +:+ String.concat "," (map encode xs) +:+ "]"
  | JObject m =>
      "{" +:+ String.concat ","
                (map_fold (fun k v acc => (quoted k +:+ ":" +:+ encode v) :: acc) [] m)
          +:+ "}"
  end.

Definition isChar (c d : ascii) : bool := bool_decide (c = d).

Fixpoint skipSpaces (s : string) : string :=
  match s with
  | String c rest => if isChar c " " then skipSpaces rest else s
  | _ => s
  end.

(** The text after [prefix], when [s] starts with it. *)
Fixpoint after (prefix s : string) : option string :=
  match prefix, s with
  | "", _ => Some s
  | String c p, String d r => if isChar c d then after p r else None
  | _, _ => None
  end.

(** The characters up to the closing quote. *)
Fixpoint readString (s : string) : option (string * string) :=
  match s with
  | "" => None
  | String c rest =>
      if isChar c dquote then Some ("", rest)
      else '(t, rest') ← readString rest; Some (String c t, rest')
  end.

Definition digit (c : ascii) : option Z :=
  let n := Z.of_nat (nat_of_ascii c) in
  if bool_decide (48 <= n <= 57)%Z then Some (n - 48)%Z else None.

Fixpoint readDigits (acc : Z) (s : string) : Z * string :=
  match s with
  | String c rest =>
      match digit c with
      | Some d => readDigits (10 * acc + d) rest
      | None => (acc, s)
      end
  | _ => (acc, s)
  end.

Fixpoint decodeValue (fuel : nat) (s : string) : option (JSON * string) :=
  match fuel with
  | 0 => None
  | S fuel =>
      match skipSpaces s with
      | String c rest =>
          if isChar c "n" then rest' ← after "ull" rest; Some (JNull, rest')
          else if isChar c "t" then rest' ← after "rue" rest; Some (JBool true, rest')
          else if isChar c "f" then rest' ← after "alse" rest; Some (JBool false, rest')
          else if isChar c dquote then
            '(t, rest') ← readString rest; Some (JString t, rest')
          else if isChar c "[" then
            match skipSpaces rest with
            | String d rest' =>
                if isChar d "]" then Some (JArray [], rest')
                else decodeElements fuel rest []
            | _ => None
            end
          else if isChar c "{" then
            match skipSpaces rest with
            | String d rest' =>
                if isChar d "}" then Some (JObject ∅, rest')
                else decodeMembers fuel rest ∅
            | _ => None
            end
          else if isChar c "-" then
            match rest with
            | String d _ =>
                match digit d with
                | Some _ =>
                    let '(n, rest') := readDigits 0 rest in Some (JNumber (- n), rest')
                | None => None
                end
            | _ => None
            end
          else
            match digit c with
            | Some _ =>
                let '(n, rest') := readDigits 0 (String c rest) in
                Some (JNumber n, rest')
            | None => None
            end
      | _ => None
      end
  end
with decodeElements (fuel : nat) (s : string) (acc : list JSON)
  : option (JSON * string) :=
  match fuel with
  | 0 => None
  | S fuel =>
      '(v, rest) ← decodeValue fuel s;
      match skipSpaces rest with
      | String c rest' =>
          if isChar c "," then decodeElements fuel rest' (acc ++ [v])
          else if isChar c "]" then Some (JArray (acc ++ [v]), rest')
          else None
      | _ => None
      end
  end
with decodeMembers (fuel : nat) (s : string) (acc : gmap string JSON)
  : option (JSON * string) :=
  match fuel with
  | 0 => None
  | S fuel =>
      match skipSpaces s with
      | String q rest =>
          if isChar q dquote then
            '(k, rest) ← readString rest;
            match skipSpaces rest with
            | String c rest =>
                if isChar c ":" then
                  '(v, rest) ← decodeValue fuel rest;
                  match skipSpaces rest with
                  | String c rest' =>
                      if isChar c "," then decodeMembers fuel rest' (<[k := v]> acc)
                      else if isChar c "}" then Some (JObject (<[k := v]> acc), rest')
                      else None
                  | _ => None
                  end
                else None
            | _ => None
            end
          else None
      | _ => None
      end
  end.

Definition decode (s : string) : option JSON :=
  '(v, rest) ← decodeValue (2 * String.length s + 2) s;
  if bool_decide (skipSpaces rest = "") then Some v else None.

Definition text (b : bytes) : string := String.string_of_list_byte b.
Definition data (s : string) : bytes := String.list_byte_of_string s.

(** *** RFC 7386 *)

Fixpoint mergeJSON (target patch : JSON) : JSON :=
  match patch with
  | JObject fields =>
      let members := match target with JObject m => m | _ => ∅ end in
      JObject
        (map_fold
           (fun k v acc =>
              match v with
              | JNull => delete k acc
              | _ => <[k := mergeJSON (default JNull (members !! k)) v]> acc
              end)
           members fields)
  | _ => patch
  end.

(** *** RFC 6902, the operations add, replace and remove on members *)

Record operation : Type := mkOperation {
  op : string;
  path : list string;
  value : JSON;
}.

Fixpoint splitOn (sep : ascii) (s cur : string) : list string :=
  match s with
  | "" => [cur]
  | String c rest =>
      if isChar c sep then cur :: splitOn sep rest ""
      else splitOn sep rest (cur +:+ String c "")
  end.

Definition pointer (s : string) : option (list string) :=
  match s with
  | "" => Some []
  | String c rest => if isChar c "/" then Some (splitOn "/" rest "") else None
  end.

Definition member (m : gmap string JSON) (k : string) : option string :=
  match m !! k with
  | Some (JString s) => Some s
  | _ => None
  end.

Definition decodeOperation (j : JSON) : option operation :=
  match j with
  | JObject m =>
      match member m "op", member m "path" with
      | Some o, Some p =>
          match pointer p with
          | Some p => Some (mkOperation o p (default JNull (m !! "value")))
          | None => None
          end
      | _, _ => None
      end
  | _ => None
  end.

Fixpoint setPath (p : list string) (v : JSON) (doc : JSON) : option JSON :=
  match p with
  | [] => Some v
  | k :: rest =>
      match doc with
      | JObject m =>
          match rest with
          | [] => Some (JObject (<[k := v]> m))
          | _ => child ← m !! k; child' ← setPath rest v child;
                 Some (JObject (<[k := child']> m))
          end
      | _ => None
      end
  end.

Fixpoint removePath (p : list string) (doc : JSON) : option JSON :=
  match p with
  | [] => None
  | k :: rest =>
      match doc with
      | JObject m =>
          child ← m !! k;
          match rest with
          | [] => Some (JObject (delete k m))
          | _ => child' ← removePath rest child; Some (JObject (<[k := child']> m))
          end
      | _ => None
      end
  end.

Definition applyOperation (doc : JSON) (o : operation) : option JSON :=
  if bool_decide (op o = "add") || bool_decide (op o = "replace")
  then setPath (path o) (value o) doc
  else if bool_decide (op o = "remove") then removePath (path o) doc
  else None.

Fixpoint applyOperations (doc : JSON) (ops : list operation) : option JSON :=
  match ops with
  | [] => Some doc
  | o :: rest => doc' ← applyOperation doc o; applyOperations doc' rest
  end.

(** *** The API types, with a JSON tree for each spec *)

#[export] Instance types : APITypes := {|
  MachineSpec := JSON;
  MachineStatus := unit;
  zeroMachineStatus := tt;
  MachineGroupVersion := "cluster.x-k8s.io/v1beta2";
  KubeadmConfigSpec := JSON;
  KubeadmConfigStatus := unit;
  zeroKubeadmConfigStatus := tt;
  KubeadmConfigGroupVersion := "bootstrap.cluster.x-k8s.io/v1beta2";
  Operation := operation;
  Client := unit;
|}.

Definition putString (k v : string) (m : gmap string JSON) : gmap string JSON :=
  if bool_decide (v = "") then m else <[k := JString v]> m.

Definition putStringMap (k : string) (v : stringMap) (m : gmap string JSON)
  : gmap string JSON :=
  match v with
  | Some kv => if bool_decide (kv = ∅) then m else <[k := JObject (JString <$> kv)]> m
  | None => m
  end.

Definition putStrings (k : string) (v : list string) (m : gmap string JSON)
  : gmap string JSON :=
  match v with
  | [] => m
  | _ => <[k := JArray (JString <$> v)]> m
  end.

Definition encodeMeta (om : metav1.ObjectMeta) : JSON :=
  JObject
    (putString "name" (metav1.Name om)
    (putString "namespace" (metav1.Namespace om)
    (putStringMap "labels" (metav1.Labels om)
    (putStringMap "annotations" (metav1.Annotations om)
    (putString "uid" (metav1.UID om)
    (putString "resourceVersion" (metav1.ResourceVersion om)
    (putStrings "finalizers" (metav1.Finalizers om) ∅))))))).

Definition encodeTyped (tm : metav1.TypeMeta) (om : metav1.ObjectMeta) (spec : JSON)
  : JSON :=
  JObject
    (putString "apiVersion" (metav1.APIVersion tm)
    (putString "kind" (metav1.Kind tm)
    (<["metadata" := encodeMeta om]> (<["spec" := spec]> {["status" := JObject ∅]})))).

Definition encodeObject (o : runtime.Object_) : JSON :=
  match o with
  | runtime.OfMachine m =>
      encodeTyped (clusterv1.TypeMeta m) (clusterv1.ObjectMeta m) (clusterv1.Spec m)
  | runtime.OfKubeadmConfig k =>
      encodeTyped (bootstrapv1.TypeMeta k) (bootstrapv1.ObjectMeta k) (bootstrapv1.Spec k)
  | runtime.OfUnstructured u => JObject (unstructured.Object u)
  end.

Definition strings (v : option JSON) : list string :=
  match v with
  | Some (JArray xs) => omap unstructured.asString xs
  | _ => []
  end.

Definition decodeMeta (u : unstructured.Unstructured) : metav1.ObjectMeta :=
  let m := unstructured.Object u in
  metav1.mkObjectMeta
    (unstructured.GetName u) (unstructured.GetNamespace u)
    (unstructured.GetLabels u) (unstructured.GetAnnotations u)
    (unstructured.NestedString m "metadata" "uid")
    (unstructured.NestedString m "metadata" "resourceVersion")
    (strings (unstructured.NestedFieldNoCopy m "metadata" "finalizers")).

Definition decodeMachine (u : unstructured.Unstructured) : clusterv1.Machine :=
  clusterv1.mkMachine
    (metav1.mkTypeMeta (unstructured.GetAPIVersion u) (unstructured.GetKind u))
    (decodeMeta u) (unstructured.index (unstructured.Object u) "spec") tt.

Definition decodeObject (b : bytes) : result unstructured.Unstructured :=
  match decode (text b) with
  | Some (JObject m) => Ok (unstructured.mk m)
  | Some _ => Err "json: cannot unmarshal into Go value of type map[string]interface {}"
  | None => Err "invalid character in JSON input"
  end.

Definition decodeUnstructured (b : bytes) : result unstructured.Unstructured :=
  u ← decodeObject b;
  if bool_decide (unstructured.GetKind u = "")
  then Err "Object 'Kind' is missing"
  else Ok u.

Definition DecodePatch (b : bytes) : go (result (list operation)) :=
  Return match decode (text b) with
         | Some (JArray xs) =>
             match mapM decodeOperation xs with
             | Some ops => Ok ops
             | None => Err "json: cannot unmarshal into Go value of type jsonpatch.Patch"
             end
         | Some JNull => Ok []
         | _ => Err "json: cannot unmarshal into Go value of type jsonpatch.Patch"
         end.

Definition Apply (ops : list operation) (doc : bytes) : go (result bytes) :=
  Return match decode (text doc) with
         | Some j =>
             match applyOperations j ops with
             | Some j' => Ok (data (encode j'))
             | None => Err "error in patch operation"
             end
         | None => Err "invalid JSON Document"
         end.

Definition MergePatch (doc patch : bytes) : go (result bytes) :=
  Return match decode (text doc), decode (text patch) with
         | Some j, Some p => Ok (data (encode (mergeJSON j p)))
         | None, _ => Err "Invalid JSON Document"
         | _, None => Err "Invalid JSON Patch"
         end.

(** Equal when the serialized forms are. *)
Definition Diff (a b : runtime.Object_) : bool * string * option error :=
  let x := encode (encodeObject a) in
  let y := encode (encodeObject b) in
  if bool_decide (x = y) then (true, "", None)
  else (false, x +:+ " != " +:+ y, None).

#[export] Instance packages : Packages := {|
  json_Marshal o := Ok (data (encode (encodeObject o)));
  json_Unmarshal_Unstructured := decodeUnstructured;
  json_Unmarshal_Machine b := u ← decodeObject b; Ok (decodeMachine u);
  jsonpatch_DecodePatch := DecodePatch;
  jsonpatch_Apply := Apply;
  jsonpatch_MergePatch := MergePatch;
  compare_Diff := Diff;
  ssa_Patch_Machine _ m := Ok m;
  ssa_Patch_Unstructured _ u := Ok u;
  PrepareKubeadmConfigsForDiff desired current _ := (desired, current);
  IsDefined p :=
    negb (bool_decide (runtimehooksv1.PatchType_ p = ""))
    || bool_decide (0 < length (runtimehooksv1.Patch_ p));
|}.
End reference.


(** ** A cluster to run the functions on *)

Module scenario.
Import reference.

Definition objectMeta (name : string) : metav1.ObjectMeta :=
  metav1.mkObjectMeta name "default"
    (Some {["cluster.x-k8s.io/cluster-name" := "c1"]}) None "uid-1" "42" [].

Definition machineOf (version : string) : clusterv1.Machine :=
  clusterv1.mkMachine
    (metav1.mkTypeMeta MachineGroupVersion "Machine") (objectMeta "m1")
    (JObject {["version" := JString version]}) tt.

Definition kubeadmConfig : bootstrapv1.KubeadmConfig :=
  bootstrapv1.mkKubeadmConfig
    (metav1.mkTypeMeta KubeadmConfigGroupVersion "KubeadmConfig") (objectMeta "m1")
    (JObject {["format" := JString "cloud-config"]}) tt.

Definition infraMachineOf (size : string) : unstructured.Unstructured :=
  unstructured.mk
    (<["apiVersion" := JString "infrastructure.cluster.x-k8s.io/v1beta2"]>
    (<["kind" := JString "DockerMachine"]>
    (<["metadata" := JObject (<["name" := JString "m1"]>
                             {["namespace" := JString "default"]})]>
    (<["spec" := JObject {["size" := JString size]}]>
    {["status" := JObject {["ready" := JBool true]}]})))).

(** The Machine runs v1.33.0 on a small instance; v1.34.0 on a large one is
    wanted. *)
Definition machine : clusterv1.Machine := machineOf "v1.33.0".

Definition upToDateResult : internal.UpToDateResult :=
  internal.mkUpToDateResult
    (Some (machineOf "v1.34.0"))
    (Some (infraMachineOf "small")) (Some (infraMachineOf "large"))
    (Some kubeadmConfig) (Some kubeadmConfig).

(** The InfraMachine was deleted. *)
Definition incomplete : internal.UpToDateResult :=
  internal.mkUpToDateResult
    (Some (machineOf "v1.34.0")) None (Some (infraMachineOf "large"))
    (Some kubeadmConfig) (Some kubeadmConfig).

(** Nothing to update. *)
Definition settled : internal.UpToDateResult :=
  internal.mkUpToDateResult
    (Some (machineOf "v1.33.0"))
    (Some (infraMachineOf "small")) (Some (infraMachineOf "small"))
    (Some kubeadmConfig) (Some kubeadmConfig).

Definition noPatch : runtimehooksv1.Patch := runtimehooksv1.mkPatch "" [].

(** A merge patch that moves the Machine to v1.34.0, and tries to rename
    it on the way. *)
Definition machinePatch : runtimehooksv1.Patch :=
  runtimehooksv1.mkPatch runtimehooksv1.JSONMergePatchType
    (data (encode (JObject
       (<["metadata" := JObject {["name" := JString "renamed"]}]>
        {["spec" := JObject {["version" := JString "v1.34.0"]}]})))).

(** A JSON patch that resizes the InfraMachine. *)
Definition infraPatch : runtimehooksv1.Patch :=
  runtimehooksv1.mkPatch runtimehooksv1.JSONPatchType
    (data (encode (JArray [JObject
       (<["op" := JString "replace"]>
       (<["path" := JString "/spec/size"]>
        {["value" := JString "large"]}))]))).

(** Handler [observer] proposes nothing, [kubernetes] the Machine patch,
    [resizer] the InfraMachine patch; any other handler fails. *)
Definition callExtension (extensionHandler : string)
  : result runtimehooksv1.CanUpdateMachineResponse :=
  if bool_decide (extensionHandler = "observer")
  then Ok (runtimehooksv1.mkResponse noPatch noPatch noPatch)
  else if bool_decide (extensionHandler = "kubernetes")
  then Ok (runtimehooksv1.mkResponse machinePatch noPatch noPatch)
  else if bool_decide (extensionHandler = "resizer")
  then Ok (runtimehooksv1.mkResponse noPatch noPatch infraPatch)
  else Err ("no such extension handler: " +:+ extensionHandler).

Definition runtimeClient (registered : list string) : RuntimeClient_ :=
  mkRuntimeClient (fun _ _ => Ok registered) (fun _ _ h _ => callExtension h).

Definition reconciler (registered : list string) : KubeadmControlPlaneReconciler :=
  mkReconciler tt (runtimeClient registered) None None.

(** A reconciler as a test sets it up, with the decision stubbed. *)
Definition stubbed : KubeadmControlPlaneReconciler :=
  mkReconciler tt (runtimeClient []) (Some (fun _ _ => (true, None))) None.

(** A reconciler as a test sets it up, with the negotiation stubbed. *)
Definition overridden : KubeadmControlPlaneReconciler :=
  mkReconciler tt (runtimeClient []) None (Some (fun _ _ _ => (true, [], None))).

Definition enabled : FeatureGate := mkFeatureGate true.
Definition disabled : FeatureGate := mkFeatureGate false.

(** The request [createRequest] builds for the Machine. *)
Definition built (machineUpToDateResult : internal.UpToDateResult)
  : runtimehooksv1.CanUpdateMachineRequest :=
  match controllers.createRequest tt machine machineUpToDateResult with
  | Return (Ok req) => req
  | _ =>
      let none :=
        runtimehooksv1.mkObjects (machineOf "")
          runtime.zeroRawExtension runtime.zeroRawExtension in
      runtimehooksv1.mkRequest none none
  end.

(** The request and the reasons the rounds of [extensionHandlers] leave. *)
Definition stateAfter (extensionHandlers : list string)
  : runtimehooksv1.CanUpdateMachineRequest * list string :=
  default (built upToDateResult, [])
    (controllers.canExtensionsUpdateMachine_after (runtimeClient []) machine
       extensionHandlers (built upToDateResult) []).

(** The InfraMachine as a document. *)
Definition document : runtime.RawExtension :=
  runtimehooksv1.InfrastructureMachine (runtimehooksv1.Current (built upToDateResult)).

(** A merge patch that resizes the InfraMachine, and reaches for its kind
    and its name as well. *)
Definition intrusivePatch : runtimehooksv1.Patch :=
  runtimehooksv1.mkPatch runtimehooksv1.JSONMergePatchType
    (data (encode (JObject
       (<["kind" := JString "Other"]>
       (<["metadata" := JObject {["name" := JString "renamed"]}]>
        {["spec" := JObject {["size" := JString "large"]}]}))))).

Definition patchedDocument : runtime.RawExtension :=
  (controllers.applyPatchToObject document intrusivePatch).1.

(** The collaborators with a patch library that hits an internal fault on
    every merge patch. *)
Definition faulty : Packages := {|
  json_Marshal := json_Marshal;
  json_Unmarshal_Unstructured := json_Unmarshal_Unstructured;
  json_Unmarshal_Machine := json_Unmarshal_Machine;
  jsonpatch_DecodePatch := jsonpatch_DecodePatch;
  jsonpatch_Apply := jsonpatch_Apply;
  jsonpatch_MergePatch _ _ := Panic "runtime error: index out of range [0] with length 0";
  compare_Diff := compare_Diff;
  ssa_Patch_Machine := ssa_Patch_Machine;
  ssa_Patch_Unstructured := ssa_Patch_Unstructured;
  PrepareKubeadmConfigsForDiff := PrepareKubeadmConfigsForDiff;
  IsDefined := IsDefined;
|}.
End scenario.

(** ** Invariants of the request *)

(** The metadata of a document is a map, or is not there. *)
Definition metadataIsMap (m : gmap string JSON) : Prop :=
  match m !! "metadata" with
  | Some (JObject _) | None => True
  | Some _ => False
  end.

Section RequestInvariant.
Context {T : APITypes}.

(** Line 273: [Object] is set, and as an Unstructured. *)
Definition isUnstructured (ext : runtime.RawExtension) : bool :=
  match runtime.Object ext with
  | Some (runtime.OfUnstructured _) => true
  | _ => false
  end.

Definition unstructuredObjects (objects : runtimehooksv1.CanUpdateMachineRequestObjects)
  : bool :=
  isUnstructured (runtimehooksv1.BootstrapConfig objects)
  && isUnstructured (runtimehooksv1.InfrastructureMachine objects).

(** The four documents of a request are all set as Unstructured. *)
Definition wellFormed (req : runtimehooksv1.CanUpdateMachineRequest) : bool :=
  unstructuredObjects (runtimehooksv1.Current req)
  && unstructuredObjects (runtimehooksv1.Desired req).

(** What [matchesUnstructuredSpec] reads of a document: the spec of its
    [Object], when that is set as an Unstructured. *)
Definition specOf (ext : runtime.RawExtension) : option JSON :=
  match runtime.Object ext with
  | Some (runtime.OfUnstructured u) =>
      Some (unstructured.index (unstructured.Object u) "spec")
  | _ => None
  end.
End RequestInvariant.

(** ** More of the example cluster *)

Module incidents.
Import reference scenario.

(** Only the InfraMachine is to be resized. *)
Definition resizeOnly : internal.UpToDateResult :=
  internal.mkUpToDateResult
    (Some (machineOf "v1.33.0"))
    (Some (infraMachineOf "small")) (Some (infraMachineOf "large"))
    (Some kubeadmConfig) (Some kubeadmConfig).

(** A JSON patch that does not decode. *)
Definition brokenPatch : runtimehooksv1.Patch :=
  runtimehooksv1.mkPatch runtimehooksv1.JSONPatchType (data "[{]").

(** A runtime client whose handlers all answer with the broken patch for
    the InfraMachine. *)
Definition brokenClient : RuntimeClient_ :=
  mkRuntimeClient (fun _ _ => Ok ["broken"])
    (fun _ _ _ _ => Ok (runtimehooksv1.mkResponse noPatch noPatch brokenPatch)).

Definition brokenReconciler : KubeadmControlPlaneReconciler :=
  mkReconciler tt brokenClient None None.

(** The collaborators with a [compare.Diff] that always fails. *)
Definition undiffable : Packages := {|
  json_Marshal := json_Marshal;
  json_Unmarshal_Unstructured := json_Unmarshal_Unstructured;
  json_Unmarshal_Machine := json_Unmarshal_Machine;
  jsonpatch_DecodePatch := jsonpatch_DecodePatch;
  jsonpatch_Apply := jsonpatch_Apply;
  jsonpatch_MergePatch := jsonpatch_MergePatch;
  compare_Diff _ _ := (false, "", Some "failed to calculate diff");
  ssa_Patch_Machine := ssa_Patch_Machine;
  ssa_Patch_Unstructured := ssa_Patch_Unstructured;
  PrepareKubeadmConfigsForDiff := PrepareKubeadmConfigsForDiff;
  IsDefined := IsDefined;
|}.

(** The request built for the Machine, its current Machine under another
    name and with other labels. *)
Definition relabelled : runtimehooksv1.CanUpdateMachineRequest :=
  controllers.setCurrentMachine (built upToDateResult)
    (clusterv1.mkMachine metav1.zeroTypeMeta
       (metav1.mkObjectMeta "other" "kube-system" (Some {["tier" := "gold"]}) None
          "" "" [])
       (clusterv1.Spec machine) tt).
End incidents.

Import runtime runtimehooksv1 internal controllers.

(** * Properties *)

(** ** The patch engine *)

Section PatchEngine.
Context {T : APITypes} {P : Packages}.

Lemma PatchSpec_failure obj patchedObjectBytes obj' err :
  patchutil.PatchSpec obj patchedObjectBytes = (obj', Some err) -> obj' = obj.
Proof.
  unfold patchutil.PatchSpec. intros H.
  repeat case_match; by simplify_eq.
Qed.

Lemma PatchSpec_success obj patchedObjectBytes obj' :
  patchutil.PatchSpec obj patchedObjectBytes = (obj', None) ->
  exists object patchedObject spec,
    json_Unmarshal_Unstructured (Raw obj) = Ok object /\
    json_Unmarshal_Unstructured patchedObjectBytes = Ok patchedObject /\
    unstructured.Object patchedObject !! "spec" = Some spec /\
    let object' := unstructured.mk (<["spec" := spec]> (unstructured.Object object)) in
    json_Marshal (OfUnstructured object') = Ok (Raw obj') /\
    Object obj' = Some (OfUnstructured object').
Proof.
  unfold patchutil.PatchSpec. intros H.
  repeat case_match; simplify_eq. eauto 10.
Qed.

Lemma overwriteSpec_failure obj patchedObject obj' changed err :
  overwriteSpec obj patchedObject = (obj', (changed, Some err)) ->
  obj' = obj /\ changed = false.
Proof.
  unfold overwriteSpec. intros H.
  destruct (patchutil.PatchSpec obj patchedObject) as [o [e|]] eqn:E; simplify_eq.
  split; [by eapply PatchSpec_failure | done].
Qed.

Lemma overwriteSpec_success obj patchedObject obj' changed :
  overwriteSpec obj patchedObject = (obj', (changed, None)) ->
  changed = true /\ patchutil.PatchSpec obj patchedObject = (obj', None).
Proof.
  unfold overwriteSpec. intros H.
  destruct (patchutil.PatchSpec obj patchedObject) as [o [e|]] eqn:E; by simplify_eq.
Qed.

(** Every way the statements after the [defer] can end. *)
Lemma applyPatchToObject_deferred_cases obj patch :
  match applyPatchToObject_deferred obj patch with
  | Panic _ => True
  | Return (obj', (changed, Some _)) => obj' = obj /\ changed = false
  | Return (obj', (changed, None)) =>
      (obj' = obj /\ changed = false) \/
      (changed = true /\
       exists patchedObject,
         patchedIntermediate obj patch patchedObject /\
         patchutil.PatchSpec obj patchedObject = (obj', None))
  end.
Proof.
  unfold applyPatchToObject_deferred, patchedIntermediate.
  case_bool_decide as HJ; [|case_bool_decide as HM].
  - destruct (jsonpatch_DecodePatch _) as [[ops|e]|v] eqn:D; simpl; [|done..].
    case_bool_decide as L; simpl; [by left|].
    destruct (jsonpatch_Apply _ _) as [[b|e]|v] eqn:A; simpl; [|done..].
    destruct (overwriteSpec obj b) as [o [c [e|]]] eqn:O.
    + by eapply overwriteSpec_failure.
    + apply overwriteSpec_success in O as [-> O]. right. split; [done|].
      exists b. split; [|done]. left. split; [done|].
      exists ops. split_and!; [done| |done]. by intros ->.
  - destruct (_ || _) eqn:E; simpl; [by left|].
    apply orb_false_iff in E as [E1 E2].
    apply bool_decide_eq_false in E1, E2.
    destruct (jsonpatch_MergePatch _ _) as [[b|e]|v] eqn:A; simpl; [|done..].
    destruct (overwriteSpec obj b) as [o [c [e|]]] eqn:O.
    + by eapply overwriteSpec_failure.
    + apply overwriteSpec_success in O as [-> O]. right. split; [done|].
      exists b. split; [|done]. right. split_and!; [done| |done|done].
      intros HE. by rewrite HE in E1.
  - done.
Qed.

Lemma patchType_not_set (patch : Patch) :
  PatchType_ patch = "" ->
  PatchType_ patch <> JSONPatchType /\ PatchType_ patch <> JSONMergePatchType.
Proof. intros ->. by split. Qed.

Lemma applyPatchToObject_set obj patch :
  PatchType_ patch <> "" ->
  applyPatchToObject obj patch = recovered obj (applyPatchToObject_deferred obj patch).
Proof. intros H. unfold applyPatchToObject. by rewrite bool_decide_eq_false_2. Qed.

Lemma recovered_panic obj v :
  recovered obj (Panic v)
  = (obj, (false, Some ("observed a panic when applying patch: " +:+ v))).
Proof. reflexivity. Qed.

Lemma applyPatchToObject_failure obj patch obj' changed err :
  applyPatchToObject obj patch = (obj', (changed, Some err)) ->
  obj' = obj /\ changed = false.
Proof.
  unfold applyPatchToObject. case_bool_decide; [by intros [= <- <- _]|].
  pose proof (applyPatchToObject_deferred_cases obj patch) as C.
  destruct (applyPatchToObject_deferred obj patch) as [[o [c [e|]]]|v];
    simpl; intros ?; by simplify_eq.
Qed.

Lemma applyPatchToObject_success obj patch obj' changed :
  applyPatchToObject obj patch = (obj', (changed, None)) ->
  (obj' = obj /\ changed = false) \/
  (changed = true /\
   exists patchedObject,
     patchedIntermediate obj patch patchedObject /\
     patchutil.PatchSpec obj patchedObject = (obj', None)).
Proof.
  unfold applyPatchToObject. case_bool_decide; [done|].
  pose proof (applyPatchToObject_deferred_cases obj patch) as C.
  destruct (applyPatchToObject_deferred obj patch) as [[o [c [e|]]]|v];
    simpl; intros ?; by simplify_eq.
Qed.

(** Overwriting the spec leaves what the getters read where it was. *)
Lemma getters_overwrite_spec (u : unstructured.Unstructured) (spec : JSON) :
  let u' := unstructured.mk (<["spec" := spec]> (unstructured.Object u)) in
  unstructured.GetAPIVersion u' = unstructured.GetAPIVersion u /\
  unstructured.GetKind u' = unstructured.GetKind u /\
  unstructured.GetName u' = unstructured.GetName u /\
  unstructured.GetNamespace u' = unstructured.GetNamespace u /\
  unstructured.GetLabels u' = unstructured.GetLabels u /\
  unstructured.GetAnnotations u' = unstructured.GetAnnotations u.
Proof.
  unfold unstructured.GetAPIVersion, unstructured.GetKind, unstructured.GetName,
    unstructured.GetNamespace, unstructured.GetLabels, unstructured.GetAnnotations,
    unstructured.topString, unstructured.NestedString, unstructured.NestedStringMap,
    unstructured.NestedFieldNoCopy.
  simpl. by rewrite !lookup_insert_ne.
Qed.

(** C3: a JSON patch that decodes to the empty operation list, and a JSON
    merge patch whose payload is empty or is exactly [{}], are no-ops:
    [applyPatchToObject] reports [changed = false] with no error and [obj],
    serialized and structured form, is what it was. *)
Theorem applyPatchToObject_empty_patch (obj : RawExtension) (patch : Patch) :
  (PatchType_ patch = JSONPatchType /\
   jsonpatch_DecodePatch (Patch_ patch) = Return (Ok []))
  \/
  (PatchType_ patch = JSONMergePatchType /\
   (Patch_ patch = [] \/ Patch_ patch = String.list_byte_of_string "{}")) ->
  applyPatchToObject obj patch = (obj, (false, None)).
Proof.
  intros [[HT HD]|[HT HP]].
  - rewrite applyPatchToObject_set by by rewrite HT.
    unfold applyPatchToObject_deferred.
    rewrite bool_decide_eq_true_2 by done. by rewrite HD.
  - rewrite applyPatchToObject_set by by rewrite HT.
    unfold applyPatchToObject_deferred.
    rewrite bool_decide_eq_false_2 by by rewrite HT.
    rewrite bool_decide_eq_true_2 by done.
    by destruct HP as [-> | ->].
Qed.

(** C4: a patch whose [patchType] is unset, or is neither [JSONPatch] nor
    [JSONMergePatch], makes [applyPatchToObject] return an error, and [obj]
    is what it was. *)
Theorem applyPatchToObject_patchType_required (obj : RawExtension) (patch : Patch) :
  PatchType_ patch = "" \/
  (PatchType_ patch <> JSONPatchType /\ PatchType_ patch <> JSONMergePatchType) ->
  exists err, applyPatchToObject obj patch = (obj, (false, Some err)).
Proof.
  intros H.
  assert (PatchType_ patch <> JSONPatchType /\ PatchType_ patch <> JSONMergePatchType)
    as [HJ HM] by (destruct H; [by apply patchType_not_set | done]).
  unfold applyPatchToObject. case_bool_decide; [by eexists|].
  unfold applyPatchToObject_deferred.
  rewrite !bool_decide_eq_false_2 by done. by eexists.
Qed.

(** C5: when [applyPatchToObject] applies a patch ([changed = true], no
    error), [obj] becomes the target as decoded from [obj.Raw] with its
    spec replaced by the spec of the patched intermediate result: every
    other top level field, and with them apiVersion, kind, name, namespace,
    labels and annotations, is what it was, whatever the patch changed in
    the intermediate result. *)
Theorem applyPatchToObject_only_spec_copied_back
    (obj obj' : RawExtension) (patch : Patch) :
  applyPatchToObject obj patch = (obj', (true, None)) ->
  exists (target patched target' : unstructured.Unstructured)
         (patchedObject : bytes) (spec : JSON),
    json_Unmarshal_Unstructured (Raw obj) = Ok target /\
    patchedIntermediate obj patch patchedObject /\
    json_Unmarshal_Unstructured patchedObject = Ok patched /\
    unstructured.Object patched !! "spec" = Some spec /\
    Object obj' = Some (OfUnstructured target') /\
    json_Marshal (OfUnstructured target') = Ok (Raw obj') /\
    unstructured.Object target' !! "spec" = Some spec /\
    (forall field : string,
        field <> "spec" ->
        unstructured.Object target' !! field = unstructured.Object target !! field) /\
    unstructured.GetAPIVersion target' = unstructured.GetAPIVersion target /\
    unstructured.GetKind target' = unstructured.GetKind target /\
    unstructured.GetName target' = unstructured.GetName target /\
    unstructured.GetNamespace target' = unstructured.GetNamespace target /\
    unstructured.GetLabels target' = unstructured.GetLabels target /\
    unstructured.GetAnnotations target' = unstructured.GetAnnotations target.
Proof.
  intros H. apply applyPatchToObject_success in H as [[_ [=]]|[_ (b & HI & HP)]].
  apply PatchSpec_success in HP as (target & patched & spec & H1 & H2 & H3 & H4 & H5).
  exists target, patched,
    (unstructured.mk (<["spec" := spec]> (unstructured.Object target))), b, spec.
  split_and!; try done.
  - simpl. apply lookup_insert_eq.
  - intros field Hf. simpl. by rewrite lookup_insert_ne.
  - apply getters_overwrite_spec.
  - apply getters_overwrite_spec.
  - apply getters_overwrite_spec.
  - apply getters_overwrite_spec.
  - apply getters_overwrite_spec.
  - apply getters_overwrite_spec.
Qed.

(** C6: a panic of the patch library inside [applyPatchToObject] does not
    leave the function: it comes back as the returned error.  And whenever
    [applyPatchToObject] returns an error, from the recovered panic, a
    malformed patch or any other failure, [obj] is what it was. *)
Theorem applyPatchToObject_panic_isolated (obj : RawExtension) (patch : Patch) :
  (forall v : string,
      applyPatchToObject_deferred obj patch = Panic v ->
      applyPatchToObject obj patch
      = (obj, (false, Some ("observed a panic when applying patch: " +:+ v))))
  /\
  (forall (obj' : RawExtension) (changed : bool) (err : error),
      applyPatchToObject obj patch = (obj', (changed, Some err)) ->
      obj' = obj /\ changed = false).
Proof.
  split.
  - intros v Hv. unfold applyPatchToObject. case_bool_decide as HT.
    + apply patchType_not_set in HT as [HJ HM]. revert Hv.
      unfold applyPatchToObject_deferred.
      by rewrite !bool_decide_eq_false_2 by done.
    + by rewrite Hv.
  - apply applyPatchToObject_failure.
Qed.
End PatchEngine.

(** ** The negotiation *)

Section Negotiation.
Context {T : APITypes} {P : Packages}.

Lemma setCurrentMachine_desired req m :
  Desired (setCurrentMachine req m) = Desired req.
Proof. reflexivity. Qed.

Lemma applyPatchesToRequest_desired req resp :
  Desired (applyPatchesToRequest req resp).1 = Desired req.
Proof.
  unfold applyPatchesToRequest.
  destruct (IsDefined (MachinePatch resp));
    [destruct (applyPatchToMachine _ _) as [m [e|]]|]; simpl; try done;
    (destruct (IsDefined (BootstrapConfigPatch resp));
     [destruct (applyPatchToObject _ _) as [o [c [e|]]]|]; simpl; try done;
     (destruct (IsDefined (InfrastructureMachinePatch resp));
      [destruct (applyPatchToObject _ _) as [o' [c' [e'|]]]|]; simpl; done)).
Qed.

(** One iteration: the events are the call, then the check on the patched
    request; the desired side stays. *)
Lemma body_cases rc machine h req :
  match canExtensionsUpdateMachine_body rc machine h req with
  | (it, trace) =>
      (trace = [Called h req] /\ (exists out, it = Leaves out) /\
       forall resp req',
         CallExtension rc CanUpdateMachine machine h req = Ok resp ->
         applyPatchesToRequest req resp <> (req', None))
      \/
      (exists resp req',
          CallExtension rc CanUpdateMachine machine h req = Ok resp /\
          applyPatchesToRequest req resp = (req', None) /\
          trace = [Called h req; Checked req'] /\
          Desired req' = Desired req /\
          match it with
          | Leaves out =>
              out = Return (true, [], None) /\
              (exists rs, matchesMachine req' = Return (true, rs, None))
              \/ (exists v, out = Panic v /\ matchesMachine req' = Panic v)
              \/ (exists err, out = Return (false, [], Some err))
          | Continues req'' reasons =>
              req'' = req' /\ matchesMachine req' = Return (false, reasons, None)
          end)
  end.
Proof.
  unfold canExtensionsUpdateMachine_body.
  destruct (CallExtension _ _ _ _ _) as [resp|e] eqn:HC.
  2:{ left. split_and!; [done|by eexists|done]. }
  pose proof (applyPatchesToRequest_desired req resp) as HD.
  destruct (applyPatchesToRequest req resp) as [req' [e|]] eqn:HA.
  { left. split_and!; [done|by eexists|]. intros ?? [= <-]. by rewrite HA. }
  simpl in HD.
  destruct (matchesMachine req') as [[[m rs] [e|]]|v] eqn:HM; [|destruct m|];
    right; exists resp, req'.
  - split_and!; try done. right. right. by eexists.
  - split_and!; try done. left. split; [done|by eexists].
  - by split_and!.
  - split_and!; try done. right. left. by eexists.
Qed.

Lemma calls_app (t1 t2 : list Event) : calls (t1 ++ t2) = calls t1 ++ calls t2.
Proof. apply omap_app. Qed.

Lemma invoked_app (t1 t2 : list Event) : invoked (t1 ++ t2) = invoked t1 ++ invoked t2.
Proof. unfold invoked. by rewrite calls_app, fmap_app. Qed.

(** The iterations that fell through called their handlers, in order, and
    the loop goes on from the state they left. *)
Lemma rounds_after rc machine before rest req0 reasons0 req reasons :
  canExtensionsUpdateMachine_after rc machine before req0 reasons0 = Some (req, reasons) ->
  exists trace,
    invoked trace = before /\
    canExtensionsUpdateMachine_rounds rc machine (before ++ rest) req0 reasons0
    = ((canExtensionsUpdateMachine_rounds rc machine rest req reasons).1,
       trace ++ (canExtensionsUpdateMachine_rounds rc machine rest req reasons).2).
Proof.
  revert req0 reasons0.
  induction before as [|h before IH]; intros req0 reasons0; simpl.
  - intros [= -> ->]. exists []. split; [done|].
    by destruct (canExtensionsUpdateMachine_rounds rc machine rest req reasons).
  - pose proof (body_cases rc machine h req0) as C.
    destruct (canExtensionsUpdateMachine_body rc machine h req0) as [[out|req1 rs1] tr];
      [done|].
    intros H. destruct (IH _ _ H) as (trace & Hi & ->).
    destruct C as [(_ & [? [=]] & _)|(resp & req' & _ & _ & -> & _)].
    exists ([Called h req0; Checked req'] ++ trace). split.
    + rewrite invoked_app, Hi. done.
    + by rewrite app_assoc.
Qed.

Lemma rounds_desired rc machine handlers req reasons :
  Forall (fun e => Desired (subject e) = Desired req)
         (canExtensionsUpdateMachine_rounds rc machine handlers req reasons).2.
Proof.
  revert req reasons. induction handlers as [|h rest IH]; intros req reasons; simpl.
  - constructor.
  - pose proof (body_cases rc machine h req) as C.
    destruct (canExtensionsUpdateMachine_body rc machine h req) as [[out|req1 rs1] tr].
    + destruct C as [(-> & _)|(? & ? & _ & _ & -> & HD & _)]; simpl.
      * by repeat constructor.
      * by repeat constructor.
    + destruct C as [(_ & [? [=]] & _)|(resp & req' & _ & _ & -> & HD & -> & _)].
      specialize (IH req' rs1).
      destruct (canExtensionsUpdateMachine_rounds rc machine rest req' rs1) as [o t].
      simpl in *. repeat constructor; try done.
      eapply Forall_impl; [exact IH|]. intros e He. by rewrite He.
Qed.

Lemma after_desired rc machine handlers req reasons req' reasons' :
  canExtensionsUpdateMachine_after rc machine handlers req reasons = Some (req', reasons') ->
  Desired req' = Desired req.
Proof.
  revert req reasons. induction handlers as [|h rest IH]; intros req reasons; simpl.
  - by intros [= -> _].
  - pose proof (body_cases rc machine h req) as C.
    destruct (canExtensionsUpdateMachine_body rc machine h req) as [[out|req1 rs1] tr];
      [done|].
    destruct C as [(_ & [? [=]] & _)|(? & ? & _ & _ & _ & HD & -> & _)].
    intros H. by rewrite (IH _ _ H).
Qed.

(** C9: [applyPatchesToRequest] leaves the desired side of the request as
    it was, whether it succeeds or fails half way; so through the rounds of
    a negotiation every request sent to a handler or looked at by a
    convergence check, and the request a round leaves behind, has the
    desired side the negotiation started with. *)
Theorem applyPatchesToRequest_desired_fixed
    (req : CanUpdateMachineRequest) (resp : CanUpdateMachineResponse) :
  Desired (applyPatchesToRequest req resp).1 = Desired req
  /\
  (forall (rc : RuntimeClient_) (machine : clusterv1.Machine)
          (extensionHandlers : list string) (reasons : list string),
      Forall (fun e => Desired (subject e) = Desired req)
             (canExtensionsUpdateMachine_rounds rc machine extensionHandlers
                req reasons).2
      /\
      forall req' reasons',
        canExtensionsUpdateMachine_after rc machine extensionHandlers req reasons
        = Some (req', reasons') ->
        Desired req' = Desired req).
Proof.
  split; [apply applyPatchesToRequest_desired|].
  intros rc machine hs rs. split; [apply rounds_desired|].
  intros req' rs'. apply after_desired.
Qed.

Lemma matchesMachine_all_match req d1 d2 d3 :
  matchesMachineSpec (Machine (Current req)) (Machine (Desired req)) = (true, d1, None) ->
  matchesUnstructuredSpec (BootstrapConfig (Current req)) (BootstrapConfig (Desired req))
  = (true, d2, None) ->
  matchesUnstructuredSpec (InfrastructureMachine (Current req))
                          (InfrastructureMachine (Desired req))
  = (true, d3, None) ->
  matchesMachine req = Return (true, [], None).
Proof. intros H1 H2 H3. unfold matchesMachine. by rewrite H1, H2, H3. Qed.

(** One iteration whose check finds the request converged. *)
Lemma body_converged rc machine h req resp req' rs :
  CallExtension rc CanUpdateMachine machine h req = Ok resp ->
  applyPatchesToRequest req resp = (req', None) ->
  matchesMachine req' = Return (true, rs, None) ->
  canExtensionsUpdateMachine_body rc machine h req
  = (Leaves (Return (true, [], None)), [Called h req; Checked req']).
Proof.
  intros HC HA HM. unfold canExtensionsUpdateMachine_body. by rewrite HC, HA, HM.
Qed.

(** One iteration whose check finds a difference. *)
Lemma body_not_converged rc machine h req resp req' rs :
  CallExtension rc CanUpdateMachine machine h req = Ok resp ->
  applyPatchesToRequest req resp = (req', None) ->
  matchesMachine req' = Return (false, rs, None) ->
  canExtensionsUpdateMachine_body rc machine h req
  = (Continues req' rs, [Called h req; Checked req']).
Proof.
  intros HC HA HM. unfold canExtensionsUpdateMachine_body. by rewrite HC, HA, HM.
Qed.

Lemma canExtensionsUpdateMachine_rounds_eq r machine res handlers req0 :
  overrideCanExtensionsUpdateMachine r = None ->
  createRequest (Client_ r) machine res = Return (Ok req0) ->
  canExtensionsUpdateMachine r machine res handlers
  = canExtensionsUpdateMachine_rounds (RuntimeClient r) machine handlers req0 [].
Proof. intros HO HR. unfold canExtensionsUpdateMachine. by rewrite HO, HR. Qed.

(** A check in the trace comes right after the call of its round, and looks
    at the request that call's patches produced. *)
Lemma rounds_checked rc machine handlers req reasons k req' :
  (canExtensionsUpdateMachine_rounds rc machine handlers req reasons).2 !! k
  = Some (Checked req') ->
  exists k' h sent resp,
    k = S k' /\
    (canExtensionsUpdateMachine_rounds rc machine handlers req reasons).2 !! k'
    = Some (Called h sent) /\
    CallExtension rc CanUpdateMachine machine h sent = Ok resp /\
    applyPatchesToRequest sent resp = (req', None).
Proof.
  revert req reasons k.
  induction handlers as [|h rest IH]; intros req reasons k; simpl; [done|].
  pose proof (body_cases rc machine h req) as C.
  destruct (canExtensionsUpdateMachine_body rc machine h req) as [[out|req1 rs1] tr].
  - destruct C as [(-> & _)|(resp & req2 & HC & HA & -> & _)]; simpl.
    + by destruct k.
    + destruct k as [|[|k]]; simpl; [done| |done].
      intros [= <-]. by exists 0, h, req, resp.
  - destruct C as [(_ & [? [=]] & _)|(resp & req2 & HC & HA & -> & _ & -> & _)].
    specialize (IH req2 rs1).
    destruct (canExtensionsUpdateMachine_rounds rc machine rest req2 rs1) as [o t].
    simpl in *. destruct k as [|[|k]]; simpl; [done| |].
    + intros [= <-]. by exists 0, h, req, resp.
    + intros H. destruct (IH _ H) as (k' & h' & sent & resp' & -> & Hk & HC' & HA').
      by exists (S (S k')), h', sent, resp'.
Qed.

(** Convergence is only ever reported by an iteration, which starts with a
    call. *)
Lemma rounds_true_called rc machine handlers req reasons rs err trace :
  canExtensionsUpdateMachine_rounds rc machine handlers req reasons
  = (Return (true, rs, err), trace) ->
  invoked trace <> [].
Proof.
  destruct handlers as [|h rest]; simpl; [done|].
  pose proof (body_cases rc machine h req) as C.
  destruct (canExtensionsUpdateMachine_body rc machine h req) as [[out|req1 rs1] tr].
  - intros [= -> ->].
    by destruct C as [(-> & _)|(? & ? & _ & _ & -> & _)].
  - destruct (canExtensionsUpdateMachine_rounds rc machine rest req1 rs1) as [o t].
    intros [= -> <-].
    by destruct C as [(-> & _)|(? & ? & _ & _ & -> & _)].
Qed.

(** A call in the trace is the call of its round: the rounds before it fell
    through and left the request it sends. *)
Lemma rounds_reached rc machine handlers req reasons i h sent :
  calls (canExtensionsUpdateMachine_rounds rc machine handlers req reasons).2 !! i
  = Some (h, sent) ->
  handlers !! i = Some h /\
  exists earlier,
    canExtensionsUpdateMachine_after rc machine (take i handlers) req reasons
    = Some (sent, earlier).
Proof.
  revert req reasons i.
  induction handlers as [|h0 rest IH]; intros req reasons i; simpl; [done|].
  pose proof (body_cases rc machine h0 req) as C.
  destruct (canExtensionsUpdateMachine_body rc machine h0 req) as [[out|req1 rs1] tr] eqn:B.
  - destruct C as [(-> & _)|(? & ? & _ & _ & -> & _)]; simpl;
      (destruct i; simpl; [|done]); intros [= <- <-]; eauto.
  - destruct C as [(_ & [? [=]] & _)|(resp & req' & _ & _ & -> & _ & -> & _)].
    pose proof (IH req' rs1) as IH'.
    destruct (canExtensionsUpdateMachine_rounds rc machine rest req' rs1) as [o t].
    simpl in *. destruct i as [|i]; simpl.
    + intros [= <- <-]. eauto.
    + intros H. rewrite B. by apply IH'.
Qed.

(** What a run is from the round of handler [i] on, when it reaches it. *)
Lemma rounds_from rc machine handlers req reasons i h sent :
  calls (canExtensionsUpdateMachine_rounds rc machine handlers req reasons).2 !! i
  = Some (h, sent) ->
  exists earlier trace,
    invoked trace = take i handlers /\
    take (S i) handlers = take i handlers ++ [h] /\
    let rest :=
      canExtensionsUpdateMachine_rounds rc machine (h :: drop (S i) handlers)
        sent earlier in
    canExtensionsUpdateMachine_rounds rc machine handlers req reasons
    = (rest.1, trace ++ rest.2).
Proof.
  intros H. apply rounds_reached in H as [Hh [earlier Ha]].
  destruct (rounds_after _ _ _ (h :: drop (S i) handlers) _ _ _ _ Ha) as (trace & Hi & Hr).
  exists earlier, trace. split_and!; [done|by apply take_S_r|].
  by rewrite take_drop_middle in Hr.
Qed.

Lemma canExtensionsUpdateMachine_called r machine res handlers i h sent :
  calls (canExtensionsUpdateMachine r machine res handlers).2 !! i = Some (h, sent) ->
  exists req0,
    canExtensionsUpdateMachine r machine res handlers
    = canExtensionsUpdateMachine_rounds (RuntimeClient r) machine handlers req0 [].
Proof.
  unfold canExtensionsUpdateMachine.
  destruct (overrideCanExtensionsUpdateMachine r); [done|].
  destruct (createRequest _ _ _) as [[req0|e]|v]; [by eexists|done..].
Qed.

(** C7: when a run of [canExtensionsUpdateMachine] gets to call the handler
    at index [i] and, after the patches of its response are applied, the
    Machine, the bootstrap config and the infrastructure machine all match
    on their spec, the run returns [(true, nil, nil)] there: the handlers it
    invokes are those at the indices up to [i], none after. *)
Theorem canExtensionsUpdateMachine_stops_at_convergence
    (r : KubeadmControlPlaneReconciler) (machine : clusterv1.Machine)
    (machineUpToDateResult : UpToDateResult) (extensionHandlers : list string)
    (i : nat) (h : string) (sent req' : CanUpdateMachineRequest)
    (resp : CanUpdateMachineResponse) (d1 d2 d3 : string) :
  let run :=
    canExtensionsUpdateMachine r machine machineUpToDateResult extensionHandlers in
  calls run.2 !! i = Some (h, sent) ->
  CallExtension (RuntimeClient r) CanUpdateMachine machine h sent = Ok resp ->
  applyPatchesToRequest sent resp = (req', None) ->
  matchesMachineSpec (Machine (Current req')) (Machine (Desired req'))
  = (true, d1, None) ->
  matchesUnstructuredSpec (BootstrapConfig (Current req')) (BootstrapConfig (Desired req'))
  = (true, d2, None) ->
  matchesUnstructuredSpec (InfrastructureMachine (Current req'))
                          (InfrastructureMachine (Desired req'))
  = (true, d3, None) ->
  run.1 = Return (true, [], None) /\
  invoked run.2 = take (S i) extensionHandlers.
Proof.
  intros run Hi HC HA H1 H2 H3. subst run.
  destruct (canExtensionsUpdateMachine_called _ _ _ _ _ _ _ Hi) as [req0 E].
  rewrite E in *.
  destruct (rounds_from _ _ _ _ _ _ _ _ Hi) as (earlier & trace & Ht & HS & ->).
  simpl.
  rewrite (body_converged _ _ _ _ _ _ _ HC HA (matchesMachine_all_match _ _ _ _ H1 H2 H3)).
  simpl. split; [done|]. by rewrite invoked_app, Ht, HS.
Qed.

(** C8: when a run of [canExtensionsUpdateMachine] gets to call the last
    handler, so that every handler is called and no round before converged,
    and the check of that last round finds the differences [reasons], the
    run returns [(false, reasons, nil)]: the reasons of the last round
    only, whatever the earlier rounds found. *)
Theorem canExtensionsUpdateMachine_reasons_of_last_round
    (r : KubeadmControlPlaneReconciler) (machine : clusterv1.Machine)
    (machineUpToDateResult : UpToDateResult) (extensionHandlers : list string)
    (i : nat) (h : string) (sent req' : CanUpdateMachineRequest)
    (resp : CanUpdateMachineResponse) (reasons : list string) :
  let run :=
    canExtensionsUpdateMachine r machine machineUpToDateResult extensionHandlers in
  length extensionHandlers = S i ->
  calls run.2 !! i = Some (h, sent) ->
  CallExtension (RuntimeClient r) CanUpdateMachine machine h sent = Ok resp ->
  applyPatchesToRequest sent resp = (req', None) ->
  matchesMachine req' = Return (false, reasons, None) ->
  run.1 = Return (false, reasons, None) /\
  invoked run.2 = extensionHandlers.
Proof.
  intros run HL Hi HC HA HM. subst run.
  destruct (canExtensionsUpdateMachine_called _ _ _ _ _ _ _ Hi) as [req0 E].
  rewrite E in *.
  destruct (rounds_from _ _ _ _ _ _ _ _ Hi) as (earlier & trace & Ht & HS & ->).
  rewrite drop_ge by lia. simpl.
  rewrite (body_not_converged _ _ _ _ _ _ _ HC HA HM).
  simpl. split; [done|].
  rewrite invoked_app, Ht.
  change (invoked [Called h sent; Checked req']) with [h].
  rewrite <- HS. apply take_ge. lia.
Qed.

Lemma canExtensionsUpdateMachine_cases r machine res handlers :
  (canExtensionsUpdateMachine r machine res handlers).2 = [] \/
  exists req0,
    overrideCanExtensionsUpdateMachine r = None /\
    createRequest (Client_ r) machine res = Return (Ok req0) /\
    canExtensionsUpdateMachine r machine res handlers
    = canExtensionsUpdateMachine_rounds (RuntimeClient r) machine handlers req0 [].
Proof.
  unfold canExtensionsUpdateMachine.
  destruct (overrideCanExtensionsUpdateMachine r); [by left|].
  destruct (createRequest _ _ _) as [[req0|e]|v]; [|by left..].
  right. by exists req0.
Qed.

(** C10, for a reconciler without [overrideCanExtensionsUpdateMachine]:
    [canExtensionsUpdateMachine] runs the convergence check only inside a
    round, right after the call of that round's handler and on the request
    the patches of its response produced.  So it returns [true] only after
    at least one handler was invoked, and with no handler, once
    [createRequest] has built the request, it returns [(false, nil, nil)]
    with no call and no check, however close that request already is. *)
Theorem canExtensionsUpdateMachine_checks_after_call
    (r : KubeadmControlPlaneReconciler) (machine : clusterv1.Machine)
    (machineUpToDateResult : UpToDateResult) (extensionHandlers : list string) :
  let run :=
    canExtensionsUpdateMachine r machine machineUpToDateResult extensionHandlers in
  (forall (k : nat) (req' : CanUpdateMachineRequest),
      run.2 !! k = Some (Checked req') ->
      exists (k' : nat) (h : string) (sent : CanUpdateMachineRequest)
             (resp : CanUpdateMachineResponse),
        k = S k' /\
        run.2 !! k' = Some (Called h sent) /\
        CallExtension (RuntimeClient r) CanUpdateMachine machine h sent = Ok resp /\
        applyPatchesToRequest sent resp = (req', None))
  /\
  (overrideCanExtensionsUpdateMachine r = None ->
   (forall (reasons : list string) (err : option error),
       run.1 = Return (true, reasons, err) -> invoked run.2 <> [])
   /\
   (forall req0 : CanUpdateMachineRequest,
       createRequest (Client_ r) machine machineUpToDateResult = Return (Ok req0) ->
       extensionHandlers = [] ->
       run = (Return (false, [], None), []))).
Proof.
  intros run. subst run. split; [|intros HO; split].
  - intros k req'.
    destruct (canExtensionsUpdateMachine_cases r machine machineUpToDateResult
                extensionHandlers) as [->|(req0 & _ & _ & ->)]; [done|].
    apply rounds_checked.
  - intros rs err. unfold canExtensionsUpdateMachine. rewrite HO.
    destruct (createRequest _ _ _) as [[req0|e]|v]; [|done..].
    destruct (canExtensionsUpdateMachine_rounds _ _ _ _ _) as [o t] eqn:R.
    simpl. intros ->. by eapply rounds_true_called.
  - intros req0 HR ->. by rewrite (canExtensionsUpdateMachine_rounds_eq _ _ _ _ _ HO HR).
Qed.
End Negotiation.

(** ** The feasibility gate *)

Section Gate.
Context {T : APITypes} {P : Packages}.

(** C1, for a reconciler without [overrideCanUpdateMachineFunc]: when the
    InPlaceUpdates gate is off, or one of the five objects of the
    UpToDateResult is nil, or no CanUpdateMachine handler is registered,
    or the registered handler was called without reaching convergence,
    [canUpdateMachine] returns [(false, nil)]. *)
Theorem canUpdateMachine_ineligible
    (gates : FeatureGate) (r : KubeadmControlPlaneReconciler)
    (machine : clusterv1.Machine) (machineUpToDateResult : UpToDateResult) :
  overrideCanUpdateMachineFunc r = None ->
  InPlaceUpdates gates = false
  \/ (DesiredMachine machineUpToDateResult = None
      \/ CurrentInfraMachine machineUpToDateResult = None
      \/ DesiredInfraMachine machineUpToDateResult = None
      \/ CurrentKubeadmConfig machineUpToDateResult = None
      \/ DesiredKubeadmConfig machineUpToDateResult = None)
  \/ GetAllExtensions (RuntimeClient r) CanUpdateMachine machine = Ok []
  \/ (exists (h : string) (reasons : list string) (trace : list Event),
         GetAllExtensions (RuntimeClient r) CanUpdateMachine machine = Ok [h] /\
         canExtensionsUpdateMachine r machine machineUpToDateResult [h]
         = (Return (false, reasons, None), trace)) ->
  (canUpdateMachine gates r machine machineUpToDateResult).1 = Return (false, None).
Proof.
  intros HO H. unfold canUpdateMachine. rewrite HO.
  destruct (InPlaceUpdates gates); simpl; [|done].
  destruct (_ || _) eqn:HN; [done|].
  destruct H as [H|[H|[H|H]]]; [done| | |].
  - repeat (apply orb_false_iff in HN as [HN ?]).
    by destruct H as [H|[H|[H|[H|H]]]]; rewrite H in *.
  - by rewrite H.
  - destruct H as (h & rs & tr & -> & ->). done.
Qed.

(** C2, for a reconciler without [overrideCanUpdateMachineFunc] that gets
    as far as looking the handlers up (the gate is on, the five objects
    are there): with more than one CanUpdateMachine handler registered,
    [canUpdateMachine] returns [(false, error)] and no handler is called. *)
Theorem canUpdateMachine_multiple_handlers
    (gates : FeatureGate) (r : KubeadmControlPlaneReconciler)
    (machine : clusterv1.Machine) (machineUpToDateResult : UpToDateResult)
    (extensionHandlers : list string) :
  overrideCanUpdateMachineFunc r = None ->
  InPlaceUpdates gates = true ->
  is_Some (DesiredMachine machineUpToDateResult) ->
  is_Some (CurrentInfraMachine machineUpToDateResult) ->
  is_Some (DesiredInfraMachine machineUpToDateResult) ->
  is_Some (CurrentKubeadmConfig machineUpToDateResult) ->
  is_Some (DesiredKubeadmConfig machineUpToDateResult) ->
  GetAllExtensions (RuntimeClient r) CanUpdateMachine machine = Ok extensionHandlers ->
  1 < length extensionHandlers ->
  exists err : error,
    canUpdateMachine gates r machine machineUpToDateResult
    = (Return (false, Some err), []).
Proof.
  intros HO HG [? H1] [? H2] [? H3] [? H4] [? H5] HE HL.
  unfold canUpdateMachine. rewrite HO, HG, H1, H2, H3, H4, H5, HE. simpl.
  rewrite bool_decide_eq_false_2 by lia.
  rewrite bool_decide_eq_true_2 by done. by eexists.
Qed.
End Gate.

(** ** Cleaning up an Unstructured *)

Section CleanupUnstructured.

Lemma SetNestedField_top m v f k :
  k <> "metadata" -> unstructured.SetNestedField m v "metadata" f !! k = m !! k.
Proof.
  intros Hk. unfold unstructured.SetNestedField.
  repeat case_match; by rewrite ?lookup_insert_ne.
Qed.

Lemma RemoveNestedField_top m f k :
  k <> "metadata" -> unstructured.RemoveNestedField m "metadata" f !! k = m !! k.
Proof.
  intros Hk. unfold unstructured.RemoveNestedField.
  repeat case_match; by rewrite ?lookup_insert_ne.
Qed.

Lemma SetNestedField_other m v f f' :
  f' <> f ->
  unstructured.NestedFieldNoCopy (unstructured.SetNestedField m v "metadata" f) "metadata" f'
  = unstructured.NestedFieldNoCopy m "metadata" f'.
Proof.
  intros Hf. unfold unstructured.SetNestedField, unstructured.NestedFieldNoCopy.
  destruct (m !! "metadata") as [[]|] eqn:E; rewrite ?E; try done.
  - by rewrite lookup_insert_eq, lookup_insert_ne.
  - rewrite lookup_insert_eq. by rewrite lookup_singleton_ne.
Qed.

Lemma RemoveNestedField_other m f f' :
  f' <> f ->
  unstructured.NestedFieldNoCopy (unstructured.RemoveNestedField m "metadata" f) "metadata" f'
  = unstructured.NestedFieldNoCopy m "metadata" f'.
Proof.
  intros Hf. unfold unstructured.RemoveNestedField, unstructured.NestedFieldNoCopy.
  destruct (m !! "metadata") as [[]|] eqn:E; rewrite ?E; try done.
  by rewrite lookup_insert_eq, lookup_delete_ne.
Qed.

Lemma SetNestedField_same m v f :
  metadataIsMap m ->
  unstructured.NestedFieldNoCopy (unstructured.SetNestedField m v "metadata" f) "metadata" f
  = Some v.
Proof.
  unfold metadataIsMap, unstructured.SetNestedField, unstructured.NestedFieldNoCopy.
  destruct (m !! "metadata") as [[]|] eqn:E; try done; intros _.
  - by rewrite lookup_insert_eq, lookup_insert_eq.
  - by rewrite lookup_insert_eq, lookup_singleton_eq.
Qed.

Lemma RemoveNestedField_same m f :
  unstructured.NestedFieldNoCopy (unstructured.RemoveNestedField m "metadata" f) "metadata" f
  = None.
Proof.
  unfold unstructured.RemoveNestedField, unstructured.NestedFieldNoCopy.
  destruct (m !! "metadata") as [[]|] eqn:E; rewrite ?E; try done.
  by rewrite lookup_insert_eq, lookup_delete_eq.
Qed.

Lemma SetNestedField_isMap m v f :
  metadataIsMap m -> metadataIsMap (unstructured.SetNestedField m v "metadata" f).
Proof.
  unfold metadataIsMap, unstructured.SetNestedField.
  destruct (m !! "metadata") as [[]|] eqn:E; try done; intros _;
    by rewrite lookup_insert_eq.
Qed.

Lemma RemoveNestedField_isMap m f :
  metadataIsMap m -> metadataIsMap (unstructured.RemoveNestedField m "metadata" f).
Proof.
  unfold metadataIsMap, unstructured.RemoveNestedField.
  destruct (m !! "metadata") as [[]|] eqn:E; rewrite ?E; try done; intros _.
  by rewrite lookup_insert_eq.
Qed.

Lemma strings_back (kv : gmap string string) :
  omap unstructured.asString (JString <$> kv) = kv.
Proof.
  apply map_eq. intros k. rewrite lookup_omap, lookup_fmap. by destruct (kv !! k).
Qed.

Lemma strings_all (kv : gmap string string) :
  map_Forall (fun (_ : string) v => is_Some (unstructured.asString v)) (JString <$> kv).
Proof.
  intros k v. rewrite lookup_fmap. destruct (kv !! k); intros [= <-]. by eexists.
Qed.

Lemma setString_top u f v k :
  k <> "metadata" ->
  unstructured.Object (unstructured.setString u f v) !! k = unstructured.Object u !! k.
Proof.
  intros Hk. unfold unstructured.setString. case_bool_decide; simpl;
    [by apply RemoveNestedField_top | by apply SetNestedField_top].
Qed.

Lemma setStringMap_top u f l k :
  k <> "metadata" ->
  unstructured.Object (unstructured.setStringMap u f l) !! k = unstructured.Object u !! k.
Proof.
  intros Hk. unfold unstructured.setStringMap. destruct l; simpl;
    [by apply SetNestedField_top | by apply RemoveNestedField_top].
Qed.

Lemma setString_other u f v f' :
  f' <> f ->
  unstructured.NestedFieldNoCopy
    (unstructured.Object (unstructured.setString u f v)) "metadata" f'
  = unstructured.NestedFieldNoCopy (unstructured.Object u) "metadata" f'.
Proof.
  intros Hf. unfold unstructured.setString. case_bool_decide; simpl;
    [by apply RemoveNestedField_other | by apply SetNestedField_other].
Qed.

Lemma setStringMap_other u f l f' :
  f' <> f ->
  unstructured.NestedFieldNoCopy
    (unstructured.Object (unstructured.setStringMap u f l)) "metadata" f'
  = unstructured.NestedFieldNoCopy (unstructured.Object u) "metadata" f'.
Proof.
  intros Hf. unfold unstructured.setStringMap. destruct l; simpl;
    [by apply SetNestedField_other | by apply RemoveNestedField_other].
Qed.

Lemma setString_isMap u f v :
  metadataIsMap (unstructured.Object u) ->
  metadataIsMap (unstructured.Object (unstructured.setString u f v)).
Proof.
  intros H. unfold unstructured.setString. case_bool_decide; simpl;
    [by apply RemoveNestedField_isMap | by apply SetNestedField_isMap].
Qed.

Lemma setStringMap_isMap u f l :
  metadataIsMap (unstructured.Object u) ->
  metadataIsMap (unstructured.Object (unstructured.setStringMap u f l)).
Proof.
  intros H. unfold unstructured.setStringMap. destruct l; simpl;
    [by apply SetNestedField_isMap | by apply RemoveNestedField_isMap].
Qed.

(** Reading a string back after setting it. *)
Lemma setString_same u f v :
  metadataIsMap (unstructured.Object u) ->
  unstructured.NestedString
    (unstructured.Object (unstructured.setString u f v)) "metadata" f = v.
Proof.
  intros H. unfold unstructured.setString, unstructured.NestedString.
  case_bool_decide as Hv; simpl.
  - by rewrite RemoveNestedField_same.
  - by rewrite SetNestedField_same.
Qed.

(** Reading a map of strings back after setting it. *)
Lemma setStringMap_same u f l :
  metadataIsMap (unstructured.Object u) ->
  unstructured.NestedStringMap
    (unstructured.Object (unstructured.setStringMap u f l)) "metadata" f = l.
Proof.
  intros H. unfold unstructured.setStringMap, unstructured.NestedStringMap.
  destruct l as [kv|]; simpl.
  - rewrite SetNestedField_same by done.
    rewrite bool_decide_eq_true_2 by apply strings_all. by rewrite strings_back.
  - by rewrite RemoveNestedField_same.
Qed.

(** The document [cleanupUnstructured] starts from, before the setters. *)
Lemma cleanupUnstructured_eq u :
  cleanupUnstructured u
  = unstructured.SetAnnotations
      (unstructured.SetLabels
         (unstructured.SetNamespace
            (unstructured.SetName
               (unstructured.mk
                  (<["apiVersion" := JString (unstructured.GetAPIVersion u)]>
                     (<["kind" := JString (unstructured.GetKind u)]>
                        {["spec" := unstructured.index (unstructured.Object u) "spec"]})))
               (unstructured.GetName u))
            (unstructured.GetNamespace u))
         (unstructured.GetLabels u))
      (unstructured.GetAnnotations u).
Proof. reflexivity. Qed.

Lemma cleanupUnstructured_top u k :
  k <> "metadata" ->
  unstructured.Object (cleanupUnstructured u) !! k
  = (<["apiVersion" := JString (unstructured.GetAPIVersion u)]>
       (<["kind" := JString (unstructured.GetKind u)]>
          {["spec" := unstructured.index (unstructured.Object u) "spec"]})
     : gmap string JSON) !! k.
Proof.
  intros Hk. rewrite cleanupUnstructured_eq.
  unfold unstructured.SetAnnotations, unstructured.SetLabels,
    unstructured.SetNamespace, unstructured.SetName.
  by rewrite !setStringMap_top, !setString_top.
Qed.

Lemma cleanupUnstructured_getters u :
  unstructured.GetAPIVersion (cleanupUnstructured u) = unstructured.GetAPIVersion u /\
  unstructured.GetKind (cleanupUnstructured u) = unstructured.GetKind u /\
  unstructured.GetName (cleanupUnstructured u) = unstructured.GetName u /\
  unstructured.GetNamespace (cleanupUnstructured u) = unstructured.GetNamespace u /\
  unstructured.GetLabels (cleanupUnstructured u) = unstructured.GetLabels u /\
  unstructured.GetAnnotations (cleanupUnstructured u) = unstructured.GetAnnotations u /\
  unstructured.index (unstructured.Object (cleanupUnstructured u)) "spec"
  = unstructured.index (unstructured.Object u) "spec".
Proof.
  assert (metadataIsMap
            (<["apiVersion" := JString (unstructured.GetAPIVersion u)]>
               (<["kind" := JString (unstructured.GetKind u)]>
                  {["spec" := unstructured.index (unstructured.Object u) "spec"]})))
    as H0.
  { unfold metadataIsMap.
    by rewrite !lookup_insert_ne, lookup_singleton_ne. }
  split_and!.
  - unfold unstructured.GetAPIVersion at 1, unstructured.topString.
    rewrite cleanupUnstructured_top by done. by rewrite lookup_insert_eq.
  - unfold unstructured.GetKind at 1, unstructured.topString.
    rewrite cleanupUnstructured_top by done.
    by rewrite lookup_insert_ne, lookup_insert_eq.
  - unfold unstructured.GetName at 1, unstructured.NestedString.
    rewrite cleanupUnstructured_eq.
    unfold unstructured.SetAnnotations, unstructured.SetLabels, unstructured.SetNamespace.
    rewrite !setStringMap_other, setString_other by done.
    by apply setString_same.
  - unfold unstructured.GetNamespace at 1, unstructured.NestedString.
    rewrite cleanupUnstructured_eq.
    unfold unstructured.SetAnnotations, unstructured.SetLabels.
    rewrite !setStringMap_other by done.
    apply setString_same. by apply setString_isMap.
  - unfold unstructured.GetLabels at 1, unstructured.NestedStringMap.
    rewrite cleanupUnstructured_eq. unfold unstructured.SetAnnotations.
    rewrite setStringMap_other by done.
    apply setStringMap_same. by do 2 apply setString_isMap.
  - unfold unstructured.GetAnnotations at 1. rewrite cleanupUnstructured_eq.
    apply setStringMap_same. apply setStringMap_isMap. by do 2 apply setString_isMap.
  - unfold unstructured.index at 1. rewrite cleanupUnstructured_top by done.
    by rewrite !lookup_insert_ne, lookup_singleton_eq.
Qed.

(** X1: [cleanupUnstructured] keeps what the request needs of a document:
    its apiVersion, kind, name, namespace, labels and annotations as the
    getters read them, and its spec (null when there is none). *)
Theorem cleanupUnstructured_keeps (u : unstructured.Unstructured) :
  unstructured.GetAPIVersion (cleanupUnstructured u) = unstructured.GetAPIVersion u /\
  unstructured.GetKind (cleanupUnstructured u) = unstructured.GetKind u /\
  unstructured.GetName (cleanupUnstructured u) = unstructured.GetName u /\
  unstructured.GetNamespace (cleanupUnstructured u) = unstructured.GetNamespace u /\
  unstructured.GetLabels (cleanupUnstructured u) = unstructured.GetLabels u /\
  unstructured.GetAnnotations (cleanupUnstructured u) = unstructured.GetAnnotations u /\
  unstructured.index (unstructured.Object (cleanupUnstructured u)) "spec"
  = unstructured.index (unstructured.Object u) "spec".
Proof. apply cleanupUnstructured_getters. Qed.

(** X2: [cleanupUnstructured] drops everything else: the cleaned document
    has no top level field besides apiVersion, kind, spec and metadata (so
    no status), and its metadata no field besides name, namespace, labels
    and annotations (so no uid, resourceVersion, managedFields). *)
Theorem cleanupUnstructured_drops (u : unstructured.Unstructured) :
  (forall k : string,
      k ∉ ["apiVersion"; "kind"; "spec"; "metadata"] ->
      unstructured.Object (cleanupUnstructured u) !! k = None)
  /\
  (forall f : string,
      f ∉ ["name"; "namespace"; "labels"; "annotations"] ->
      unstructured.NestedFieldNoCopy
        (unstructured.Object (cleanupUnstructured u)) "metadata" f = None).
Proof.
  split.
  - intros k Hk. rewrite !not_elem_of_cons in Hk. destruct Hk as (H1 & H2 & H3 & H4 & _).
    rewrite cleanupUnstructured_top by done.
    by rewrite !lookup_insert_ne, lookup_singleton_ne.
  - intros f Hf. rewrite !not_elem_of_cons in Hf. destruct Hf as (H1 & H2 & H3 & H4 & _).
    rewrite cleanupUnstructured_eq.
    unfold unstructured.SetAnnotations, unstructured.SetLabels,
      unstructured.SetNamespace, unstructured.SetName.
    rewrite !setStringMap_other, !setString_other by done.
    unfold unstructured.NestedFieldNoCopy. simpl.
    by rewrite !lookup_insert_ne, lookup_singleton_ne.
Qed.

Lemma cleanupUnstructured_again u :
  cleanupUnstructured (cleanupUnstructured u) = cleanupUnstructured u.
Proof.
  destruct (cleanupUnstructured_getters u) as (H1 & H2 & H3 & H4 & H5 & H6 & H7).
  rewrite (cleanupUnstructured_eq (cleanupUnstructured u)).
  rewrite H1, H2, H3, H4, H5, H6, H7. symmetry. apply cleanupUnstructured_eq.
Qed.

(** X3: cleaning a cleaned document changes nothing. *)
Theorem cleanupUnstructured_idempotent (u : unstructured.Unstructured) :
  cleanupUnstructured (cleanupUnstructured u) = cleanupUnstructured u.
Proof. apply cleanupUnstructured_again. Qed.
End CleanupUnstructured.

(** ** Documents and the request invariant *)

Section Documents.
Context {T : APITypes} {P : Packages}.

(** X4: [convertToRawExtension] sets both forms or fails: on success [Raw]
    is the serialized object and [Object] an Unstructured, the object itself
    when it is one and the decoded [Raw] otherwise; it fails exactly when
    the object does not marshal or, for a typed object, when its JSON does
    not decode into an Unstructured. *)
Theorem convertToRawExtension_sets_both (object : Object_) :
  match convertToRawExtension object with
  | Ok ext =>
      json_Marshal object = Ok (Raw ext) /\
      exists u : unstructured.Unstructured,
        Object ext = Some (OfUnstructured u) /\
        match object with
        | OfUnstructured u0 => u = u0
        | _ => json_Unmarshal_Unstructured (Raw ext) = Ok u
        end
  | Err err =>
      (exists e,
          json_Marshal object = Err e /\
          err = errors.Wrap e "failed to marshal object to JSON")
      \/
      (exists raw e,
          json_Marshal object = Ok raw /\
          (forall u0, object <> OfUnstructured u0) /\
          json_Unmarshal_Unstructured raw = Err e /\
          err = errors.Wrap e "failed to Unmarshal object into Unstructured")
  end.
Proof.
  unfold convertToRawExtension.
  destruct (json_Marshal object) as [raw|e]; simpl; [|left; by eexists].
  destruct object as [m|k|u0]; simpl.
  - destruct (json_Unmarshal_Unstructured raw) as [u|e] eqn:E; simpl.
    + split; [done|]. by exists u.
    + right. exists raw, e. by split_and!.
  - destruct (json_Unmarshal_Unstructured raw) as [u|e] eqn:E; simpl.
    + split; [done|]. by exists u.
    + right. exists raw, e. by split_and!.
  - split; [done|]. by exists u0.
Qed.

Lemma convertToRawExtension_isUnstructured object ext :
  convertToRawExtension object = Ok ext -> isUnstructured ext = true.
Proof.
  unfold convertToRawExtension.
  destruct (json_Marshal object) as [raw|e]; simpl; [|done].
  destruct object as [m|k|u0]; simpl;
    try destruct (json_Unmarshal_Unstructured raw) as [u|e]; simpl;
    by intros [= <-].
Qed.

Lemma applyPatchToObject_cases obj patch :
  match applyPatchToObject obj patch with
  | (obj', (true, err)) =>
      err = None /\
      exists u : unstructured.Unstructured,
        Object obj' = Some (OfUnstructured u) /\
        json_Marshal (OfUnstructured u) = Ok (Raw obj')
  | (obj', (false, _)) => obj' = obj
  end.
Proof.
  destruct (applyPatchToObject obj patch) as [obj' [changed [e|]]] eqn:H.
  - apply applyPatchToObject_failure in H as [-> ->]. done.
  - apply applyPatchToObject_success in H as [[-> ->]|[-> (b & _ & HP)]]; [done|].
    split; [done|].
    apply PatchSpec_success in HP as (target & patched & spec & _ & _ & _ & H4 & H5).
    eauto.
Qed.

(** X5: [applyPatchToObject] never changes [obj] without reporting it, and
    never reports a change together with an error.  When [objChanged] is
    false, with or without error, [obj] is what it was; when it is true the
    error is nil and both forms of [obj] were set together, [Object] as an
    Unstructured and [Raw] as its serialization.  The converse does not
    hold: [objChanged] tells that a patch was applied, not that [obj]
    differs from what it was. *)
Theorem applyPatchToObject_changes_only_when_reported
    (obj : RawExtension) (patch : Patch) :
  let '(obj', (changed, err)) := applyPatchToObject obj patch in
  (obj' <> obj -> changed = true) /\
  (changed = false -> obj' = obj) /\
  (err <> None -> changed = false) /\
  (changed = true ->
   err = None /\
   exists u : unstructured.Unstructured,
     Object obj' = Some (OfUnstructured u) /\
     json_Marshal (OfUnstructured u) = Ok (Raw obj')).
Proof.
  pose proof (applyPatchToObject_cases obj patch) as C.
  destruct (applyPatchToObject obj patch) as [obj' [[] err]].
  - destruct C as [-> C]. by split_and!.
  - subst obj'. by split_and!.
Qed.

Lemma applyPatchToObject_isUnstructured obj patch :
  isUnstructured obj = true -> isUnstructured (applyPatchToObject obj patch).1 = true.
Proof.
  intros H. pose proof (applyPatchToObject_cases obj patch) as C.
  destruct (applyPatchToObject obj patch) as [obj' [[] e]]; simpl.
  - destruct C as (_ & u & Hu & _). unfold isUnstructured. by rewrite Hu.
  - by subst.
Qed.

Lemma applyPatchToMachine_cases m patch :
  match applyPatchToMachine m patch with
  | (m', Some _) => m' = m
  | (m', None) =>
      m' = m \/
      exists raw raw' : RawExtension,
        convertToRawExtension (OfMachine m) = Ok raw /\
        applyPatchToObject raw patch = (raw', (true, None)) /\
        json_Unmarshal_Machine (Raw raw') = Ok m'
  end.
Proof.
  unfold applyPatchToMachine.
  destruct (convertToRawExtension (OfMachine m)) as [raw|e]; [|done].
  destruct (applyPatchToObject raw patch) as [raw' [changed [e|]]] eqn:H; [done|].
  destruct changed; simpl; [|by left].
  destruct (json_Unmarshal_Machine (Raw raw')) as [m'|e] eqn:U; [|done].
  right. by exists raw, raw'.
Qed.

(** X6: [applyPatchToMachine] never half-patches the Machine: when it
    returns an error the Machine is what it was, and otherwise it is either
    what it was or the Machine decoded afresh from the document that
    [applyPatchToObject] changed. *)
Theorem applyPatchToMachine_replaces_or_keeps (m : clusterv1.Machine) (patch : Patch) :
  match applyPatchToMachine m patch with
  | (m', Some _) => m' = m
  | (m', None) =>
      m' = m \/
      exists raw raw' : RawExtension,
        convertToRawExtension (OfMachine m) = Ok raw /\
        applyPatchToObject raw patch = (raw', (true, None)) /\
        json_Unmarshal_Machine (Raw raw') = Ok m'
  end.
Proof. apply applyPatchToMachine_cases. Qed.

(** Each of the three steps of [applyPatchesToRequest], and what it leaves. *)
Lemma applyPatchesToRequest_steps req resp :
  let out := applyPatchesToRequest req resp in
  let cur := Current req in
  exists (m : clusterv1.Machine) (b i : RawExtension),
    Current out.1 = mkObjects m b i /\
    (IsDefined (MachinePatch resp) = false -> m = Machine cur) /\
    (IsDefined (BootstrapConfigPatch resp) = false -> b = BootstrapConfig cur) /\
    (IsDefined (InfrastructureMachinePatch resp) = false -> i = InfrastructureMachine cur) /\
    (out.2 <> None -> i = InfrastructureMachine cur) /\
    (isUnstructured (BootstrapConfig cur) = true -> isUnstructured b = true) /\
    (isUnstructured (InfrastructureMachine cur) = true -> isUnstructured i = true).
Proof.
  unfold applyPatchesToRequest. destruct req as [[m0 b0 i0] des]. simpl.
  assert (forall (d : bool) (m : clusterv1.Machine) (e : option error),
             (if d then let '(m1, err) := (m, e) in
                        (setCurrentMachine (mkRequest (mkObjects m0 b0 i0) des) m1, err)
              else (mkRequest (mkObjects m0 b0 i0) des, None))
             = (mkRequest (mkObjects (if d then m else m0) b0 i0) des,
                if d then e else None)) as E1 by (by intros []).
  destruct (applyPatchToMachine m0 (MachinePatch resp)) as [m1 e1].
  rewrite E1. clear E1.
  set (m := if IsDefined (MachinePatch resp) then m1 else m0).
  assert (IsDefined (MachinePatch resp) = false -> m = m0) as Hm
      by (subst m; by intros ->).
  destruct (if IsDefined (MachinePatch resp) then e1 else None) as [e|].
  { exists m, b0, i0. by split_and!. }
  simpl.
  pose proof (applyPatchToObject_isUnstructured b0 (BootstrapConfigPatch resp)) as Ub.
  destruct (IsDefined (BootstrapConfigPatch resp)) eqn:Db.
  - destruct (applyPatchToObject b0 (BootstrapConfigPatch resp)) as [b [cb [eb|]]]; simpl.
    { exists m, b, i0. by split_and!. }
    pose proof (applyPatchToObject_isUnstructured i0 (InfrastructureMachinePatch resp)) as Ui.
    pose proof (applyPatchToObject_cases i0 (InfrastructureMachinePatch resp)) as Ci.
    destruct (IsDefined (InfrastructureMachinePatch resp)) eqn:Di.
    + destruct (applyPatchToObject i0 (InfrastructureMachinePatch resp))
        as [i [ci [ei|]]]; simpl.
      * exists m, b, i. split_and!; try done. intros _. by destruct ci; [destruct Ci|].
      * exists m, b, i. by split_and!.
    + exists m, b, i0. by split_and!.
  - simpl.
    pose proof (applyPatchToObject_isUnstructured i0 (InfrastructureMachinePatch resp)) as Ui.
    pose proof (applyPatchToObject_cases i0 (InfrastructureMachinePatch resp)) as Ci.
    destruct (IsDefined (InfrastructureMachinePatch resp)) eqn:Di.
    + destruct (applyPatchToObject i0 (InfrastructureMachinePatch resp))
        as [i [ci [ei|]]]; simpl.
      * exists m, b0, i. split_and!; try done. intros _. by destruct ci; [destruct Ci|].
      * exists m, b0, i. by split_and!.
    + exists m, b0, i0. by split_and!.
Qed.

(** X7: [applyPatchesToRequest] touches a resource only through a patch that
    is defined for it: the Machine, the bootstrap config and the
    infrastructure machine of the current side are each what they were when
    the response defines no patch for them, also when the call fails.  And
    whenever the call fails, the infrastructure machine, which is patched
    last, is what it was. *)
Theorem applyPatchesToRequest_frame
    (req : CanUpdateMachineRequest) (resp : CanUpdateMachineResponse) :
  let out := applyPatchesToRequest req resp in
  (IsDefined (MachinePatch resp) = false ->
   Machine (Current out.1) = Machine (Current req)) /\
  (IsDefined (BootstrapConfigPatch resp) = false ->
   BootstrapConfig (Current out.1) = BootstrapConfig (Current req)) /\
  (IsDefined (InfrastructureMachinePatch resp) = false ->
   InfrastructureMachine (Current out.1) = InfrastructureMachine (Current req)) /\
  (out.2 <> None ->
   InfrastructureMachine (Current out.1) = InfrastructureMachine (Current req)).
Proof.
  intros out. subst out.
  destruct (applyPatchesToRequest_steps req resp)
    as (m & b & i & -> & H1 & H2 & H3 & H4 & _). simpl. by split_and!.
Qed.

Lemma applyPatchesToRequest_wellFormed req resp :
  wellFormed req = true -> wellFormed (applyPatchesToRequest req resp).1 = true.
Proof.
  unfold wellFormed, unstructuredObjects.
  rewrite applyPatchesToRequest_desired.
  destruct (applyPatchesToRequest_steps req resp)
    as (m & b & i & -> & _ & _ & _ & _ & H5 & H6). simpl.
  rewrite !andb_true_iff. intros [[Hb Hi] Hd]. split_and!; tauto.
Qed.

Lemma bind_Ok {A B : Type} (m : result A) (k : A -> result B) (b : B) :
  m ≫= k = Ok b -> exists a, m = Ok a /\ k a = Ok b.
Proof. destruct m as [a|e]; [by exists a | done]. Qed.

Lemma wrapped_Ok {A : Type} (m : result A) (msg : string) (a : A) :
  errors.wrapped m msg = Ok a -> m = Ok a.
Proof. by destruct m. Qed.

(** What a successful [createRequest] went through. *)
Lemma createRequest_Ok c machine res req :
  createRequest c machine res = Return (Ok req) ->
  exists ck ci dm dk di dm' ci' di' cb db cib dib,
    CurrentKubeadmConfig res = Some ck /\
    CurrentInfraMachine res = Some ci /\
    DesiredMachine res = Some dm /\
    DesiredKubeadmConfig res = Some dk /\
    DesiredInfraMachine res = Some di /\
    ssa_Patch_Machine c dm = Ok dm' /\
    ssa_Patch_Unstructured c
      (unstructured.SetAnnotations
         (unstructured.SetLabels ci (unstructured.GetLabels di))
         (unstructured.GetAnnotations di)) = Ok ci' /\
    ssa_Patch_Unstructured c di = Ok di' /\
    (let prepared :=
       PrepareKubeadmConfigsForDiff dk
         (bootstrapv1.SetAnnotations
            (bootstrapv1.SetLabels ck (bootstrapv1.GetLabels dk))
            (bootstrapv1.GetAnnotations dk)) true in
     convertToRawExtension (OfKubeadmConfig (cleanupKubeadmConfig prepared.2)) = Ok cb /\
     convertToRawExtension (OfKubeadmConfig (cleanupKubeadmConfig prepared.1)) = Ok db) /\
    convertToRawExtension (OfUnstructured (cleanupUnstructured ci')) = Ok cib /\
    convertToRawExtension (OfUnstructured (cleanupUnstructured di')) = Ok dib /\
    req = mkRequest (mkObjects (cleanupMachine machine) cb cib)
                    (mkObjects (cleanupMachine dm') db dib).
Proof.
  unfold createRequest.
  destruct (CurrentKubeadmConfig res) as [ck|], (CurrentInfraMachine res) as [ci|],
    (DesiredMachine res) as [dm|], (DesiredKubeadmConfig res) as [dk|],
    (DesiredInfraMachine res) as [di|]; try done.
  intros [= H].
  apply bind_Ok in H as (dm' & H1 & H). apply wrapped_Ok in H1.
  apply bind_Ok in H as (ci' & H2 & H). apply wrapped_Ok in H2.
  apply bind_Ok in H as (di' & H3 & H). apply wrapped_Ok in H3.
  destruct (PrepareKubeadmConfigsForDiff _ _ _) as [dk' ck'] eqn:HP.
  apply bind_Ok in H as (cb & H4 & H).
  apply bind_Ok in H as (db & H5 & H).
  apply bind_Ok in H as (cib & H6 & H).
  apply bind_Ok in H as (dib & H7 & H).
  injection H as <-.
  exists ck, ci, dm, dk, di, dm', ci', di', cb, db, cib, dib.
  split_and!; try done; simpl; by rewrite HP.
Qed.

Lemma createRequest_wellFormed c machine res req :
  createRequest c machine res = Return (Ok req) -> wellFormed req = true.
Proof.
  intros H. apply createRequest_Ok in H
    as (ck & ci & dm & dk & di & dm' & ci' & di' & cb & db & cib & dib
        & _ & _ & _ & _ & _ & _ & _ & _ & [E1 E2] & E3 & E4 & ->).
  unfold wellFormed, unstructuredObjects. simpl.
  by rewrite (convertToRawExtension_isUnstructured _ _ E1),
    (convertToRawExtension_isUnstructured _ _ E2),
    (convertToRawExtension_isUnstructured _ _ E3),
    (convertToRawExtension_isUnstructured _ _ E4).
Qed.

(** X8: the invariant the comments at lines 273 and 439 rely on.  The four
    documents of the request [createRequest] builds are set as Unstructured,
    and [applyPatchesToRequest] keeps them so, whatever the response and
    whether it fails or not. *)
Theorem request_stays_wellFormed :
  (forall (c : Client) (machine : clusterv1.Machine) (res : UpToDateResult)
          (req : CanUpdateMachineRequest),
      createRequest c machine res = Return (Ok req) -> wellFormed req = true)
  /\
  (forall (req : CanUpdateMachineRequest) (resp : CanUpdateMachineResponse),
      wellFormed req = true -> wellFormed (applyPatchesToRequest req resp).1 = true).
Proof.
  split; [apply createRequest_wellFormed | apply applyPatchesToRequest_wellFormed].
Qed.

Lemma matchesUnstructuredSpec_wellFormed (patched desired : RawExtension) :
  isUnstructured patched = true -> isUnstructured desired = true ->
  exists pu du,
    Object patched = Some (OfUnstructured pu) /\
    Object desired = Some (OfUnstructured du) /\
    matchesUnstructuredSpec patched desired
    = compare_Diff (OfUnstructured (unstructuredOfSpec pu))
                   (OfUnstructured (unstructuredOfSpec du)).
Proof.
  unfold isUnstructured, matchesUnstructuredSpec.
  destruct (Object patched) as [[| |pu]|]; try done.
  destruct (Object desired) as [[| |du]|]; try done. eauto.
Qed.

Lemma matchesMachine_returns req :
  wellFormed req = true ->
  exists m rs e,
    matchesMachine req = Return (m, rs, e) /\
    ((forall a b, (compare_Diff a b).2 = None) -> e = None).
Proof.
  unfold wellFormed, unstructuredObjects. rewrite !andb_true_iff.
  intros [[Hcb Hci] [Hdb Hdi]].
  assert (exists k, Kind (Object (InfrastructureMachine (Current req))) = Return k)
    as [k Hk].
  { unfold isUnstructured in Hci. unfold Kind.
    destruct (Object (InfrastructureMachine (Current req))) as [[]|]; try done.
    by eexists. }
  destruct (matchesUnstructuredSpec_wellFormed _ _ Hcb Hdb) as (pb & db & _ & _ & Eb).
  destruct (matchesUnstructuredSpec_wellFormed _ _ Hci Hdi) as (pi & di & _ & _ & Ei).
  unfold matchesMachine. rewrite Eb, Ei. unfold matchesMachineSpec.
  destruct (compare_Diff (OfMachine _) _) as [[m1 d1] [e1|]] eqn:E1.
  { do 3 eexists. split; [done|]. intros HD.
    apply (f_equal snd) in E1. by rewrite HD in E1. }
  destruct (compare_Diff (OfUnstructured (unstructuredOfSpec pb)) _)
    as [[m2 d2] [e2|]] eqn:E2.
  { do 3 eexists. split; [done|]. intros HD.
    apply (f_equal snd) in E2. by rewrite HD in E2. }
  destruct (compare_Diff (OfUnstructured (unstructuredOfSpec pi)) _)
    as [[m3 d3] [e3|]] eqn:E3; rewrite Hk; simpl.
  { do 3 eexists. split; [done|]. intros HD.
    apply (f_equal snd) in E3. by rewrite HD in E3. }
  destruct m1, m2, m3; simpl; do 3 eexists; (split; [reflexivity|done]).
Qed.

(** X9: on a request whose four documents are set as Unstructured,
    [matchesMachine] returns: the method call on a nil interface that
    formats the kind (lines 413 and 416) is not reached.  And the only
    errors it can then return are those of [compare.Diff]: with a diff that
    does not fail there is none. *)
Theorem matchesMachine_returns_on_wellFormed (req : CanUpdateMachineRequest) :
  wellFormed req = true ->
  exists (m : bool) (reasons : list string) (err : option error),
    matchesMachine req = Return (m, reasons, err) /\
    ((forall a b : Object_, (compare_Diff a b).2 = None) -> err = None).
Proof. apply matchesMachine_returns. Qed.
(** What a [true] of [matchesMachine] rests on. *)
Lemma matchesMachine_true req rs e :
  matchesMachine req = Return (true, rs, e) ->
  rs = [] /\ e = None /\
  exists d1 d2 d3,
    matchesMachineSpec (Machine (Current req)) (Machine (Desired req))
    = (true, d1, None) /\
    matchesUnstructuredSpec (BootstrapConfig (Current req)) (BootstrapConfig (Desired req))
    = (true, d2, None) /\
    matchesUnstructuredSpec (InfrastructureMachine (Current req))
                            (InfrastructureMachine (Desired req))
    = (true, d3, None).
Proof.
  unfold matchesMachine.
  destruct (matchesMachineSpec _ _) as [[m1 d1] [e1|]]; [done|].
  destruct (matchesUnstructuredSpec (BootstrapConfig _) _) as [[m2 d2] [e2|]]; [done|].
  destruct (matchesUnstructuredSpec (InfrastructureMachine _) _) as [[m3 d3] [e3|]].
  { by destruct (Kind _). }
  destruct m3.
  - simpl. case_bool_decide; [done|].
    destruct m1, m2; simpl in *; try lia. intros [= <- <-]. eauto 10.
  - destruct (Kind _) as [k|v]; simpl; [|done].
    case_bool_decide as L; [done|]. rewrite length_app in L. simpl in L. lia.
Qed.

(** X12: [matchesMachine] answers [true] exactly when the Machine spec,
    the bootstrap config spec and the infrastructure machine spec all
    compare equal without error; and a [true] comes with no reasons and no
    error. *)
Theorem matchesMachine_true_iff_all_match (req : CanUpdateMachineRequest) :
  ((exists (reasons : list string) (err : option error),
       matchesMachine req = Return (true, reasons, err))
   <->
   (exists d1 d2 d3 : string,
       matchesMachineSpec (Machine (Current req)) (Machine (Desired req))
       = (true, d1, None) /\
       matchesUnstructuredSpec (BootstrapConfig (Current req))
                               (BootstrapConfig (Desired req))
       = (true, d2, None) /\
       matchesUnstructuredSpec (InfrastructureMachine (Current req))
                               (InfrastructureMachine (Desired req))
       = (true, d3, None)))
  /\
  (forall (reasons : list string) (err : option error),
      matchesMachine req = Return (true, reasons, err) ->
      reasons = [] /\ err = None).
Proof.
  split; [split|].
  - intros (rs & e & H). by apply matchesMachine_true in H as (_ & _ & H).
  - intros (d1 & d2 & d3 & H1 & H2 & H3).
    exists [], None. unfold matchesMachine. by rewrite H1, H2, H3.
  - intros rs e H. apply matchesMachine_true in H. tauto.
Qed.

Lemma matchesMachine_shape req :
  match matchesMachine req with
  | Return (m, reasons, Some _) => m = false /\ reasons = []
  | Return (m, reasons, None) =>
      (m = true <-> reasons = []) /\ length reasons <= 3
  | Panic _ => Object (InfrastructureMachine (Current req)) = None
  end.
Proof.
  unfold matchesMachine.
  destruct (matchesMachineSpec _ _) as [[m1 d1] [e1|]]; [done|].
  destruct (matchesUnstructuredSpec (BootstrapConfig _) _) as [[m2 d2] [e2|]]; [done|].
  destruct (matchesUnstructuredSpec (InfrastructureMachine _) _) as [[m3 d3] [e3|]].
  { unfold Kind. by destruct (Object (InfrastructureMachine (Current req))). }
  destruct m3.
  - simpl. case_bool_decide as L.
    + split; [|destruct m1, m2; simpl; lia].
      split; [done|]. intros E. rewrite E in L. simpl in L. lia.
    + split; [done|simpl; lia].
  - unfold Kind. destruct (Object (InfrastructureMachine (Current req))); simpl; [|done].
    case_bool_decide as L.
    + split; [|destruct m1, m2; simpl; lia].
      split; [done|]. intros E. rewrite E in L. simpl in L. lia.
    + split; [done|simpl; lia].
Qed.

(** X13: the three shapes of what [matchesMachine] returns.  With an
    error it is [false] without reasons; without one, it is [true] exactly
    when there is no reason, and there are at most three reasons, one for
    each resource.  It panics only on a request whose current
    infrastructure machine has a nil [Object]. *)
Theorem matchesMachine_verdict (req : CanUpdateMachineRequest) :
  match matchesMachine req with
  | Return (m, reasons, Some _) => m = false /\ reasons = []
  | Return (m, reasons, None) =>
      (m = true <-> reasons = []) /\ length reasons <= 3
  | Panic _ => Object (InfrastructureMachine (Current req)) = None
  end.
Proof. apply matchesMachine_shape. Qed.

Lemma matchesUnstructuredSpec_specOf patched desired :
  matchesUnstructuredSpec patched desired =
  match specOf patched with
  | Some spec =>
      match specOf desired with
      | Some spec' =>
          compare_Diff (OfUnstructured (unstructured.mk {["spec" := spec]}))
                       (OfUnstructured (unstructured.mk {["spec" := spec']}))
      | None => (false, "", Some (errors.Errorf "desired object is not an Unstructured"))
      end
  | None => (false, "", Some (errors.Errorf "patched object is not an Unstructured"))
  end.
Proof.
  unfold matchesUnstructuredSpec, specOf.
  destruct (Object patched) as [[]|]; try done.
  by destruct (Object desired) as [[]|].
Qed.

Lemma matchesMachine_specs req1 req2 :
  clusterv1.Spec (Machine (Current req1)) = clusterv1.Spec (Machine (Current req2)) ->
  clusterv1.Spec (Machine (Desired req1)) = clusterv1.Spec (Machine (Desired req2)) ->
  specOf (BootstrapConfig (Current req1)) = specOf (BootstrapConfig (Current req2)) ->
  specOf (BootstrapConfig (Desired req1)) = specOf (BootstrapConfig (Desired req2)) ->
  specOf (InfrastructureMachine (Current req1))
  = specOf (InfrastructureMachine (Current req2)) ->
  specOf (InfrastructureMachine (Desired req1))
  = specOf (InfrastructureMachine (Desired req2)) ->
  Kind (Object (InfrastructureMachine (Current req1)))
  = Kind (Object (InfrastructureMachine (Current req2))) ->
  matchesMachine req1 = matchesMachine req2.
Proof.
  intros H1 H2 H3 H4 H5 H6 H7.
  unfold matchesMachine, matchesMachineSpec.
  rewrite !matchesUnstructuredSpec_specOf.
  by rewrite H1, H2, H3, H4, H5, H6, H7.
Qed.

(** X14: [matchesMachine] looks at specs only.  Two requests whose
    Machines have the same specs, whose documents have the same specs, and
    whose current infrastructure machine is of the same kind (it names the
    reason) get the same answer, the same reasons and the same error:
    names, labels, annotations and the serialized form never count. *)
Theorem matchesMachine_looks_at_specs_only (req1 req2 : CanUpdateMachineRequest) :
  clusterv1.Spec (Machine (Current req1)) = clusterv1.Spec (Machine (Current req2)) ->
  clusterv1.Spec (Machine (Desired req1)) = clusterv1.Spec (Machine (Desired req2)) ->
  specOf (BootstrapConfig (Current req1)) = specOf (BootstrapConfig (Current req2)) ->
  specOf (BootstrapConfig (Desired req1)) = specOf (BootstrapConfig (Desired req2)) ->
  specOf (InfrastructureMachine (Current req1))
  = specOf (InfrastructureMachine (Current req2)) ->
  specOf (InfrastructureMachine (Desired req1))
  = specOf (InfrastructureMachine (Desired req2)) ->
  Kind (Object (InfrastructureMachine (Current req1)))
  = Kind (Object (InfrastructureMachine (Current req2))) ->
  matchesMachine req1 = matchesMachine req2.
Proof. apply matchesMachine_specs. Qed.

Lemma convertToRawExtension_OfUnstructured u ext :
  convertToRawExtension (OfUnstructured u) = Ok ext ->
  Object ext = Some (OfUnstructured u).
Proof.
  unfold convertToRawExtension.
  destruct (json_Marshal (OfUnstructured u)) as [raw|e]; simpl; [|done].
  by intros [= <-].
Qed.

Lemma createRequest_clean c machine res req :
  createRequest c machine res = Return (Ok req) ->
  Machine (Current req) = cleanupMachine machine /\
  (exists dm dm',
      DesiredMachine res = Some dm /\ ssa_Patch_Machine c dm = Ok dm' /\
      Machine (Desired req) = cleanupMachine dm') /\
  (exists u,
      Object (InfrastructureMachine (Current req)) = Some (OfUnstructured u) /\
      cleanupUnstructured u = u) /\
  (exists u,
      Object (InfrastructureMachine (Desired req)) = Some (OfUnstructured u) /\
      cleanupUnstructured u = u).
Proof.
  intros H. apply createRequest_Ok in H
    as (ck & ci & dm & dk & di & dm' & ci' & di' & cb & db & cib & dib
        & _ & _ & Hdm & _ & _ & Hs & _ & _ & _ & E3 & E4 & ->).
  simpl. split_and!; [done|by exists dm, dm'| |].
  - exists (cleanupUnstructured ci'). split; [|apply cleanupUnstructured_again].
    by apply convertToRawExtension_OfUnstructured.
  - exists (cleanupUnstructured di'). split; [|apply cleanupUnstructured_again].
    by apply convertToRawExtension_OfUnstructured.
Qed.

(** X15: what the request of [createRequest] carries.  The current
    Machine is the given Machine cleaned up, taken as it is and not through
    a dry run; the desired Machine is the dry-run result cleaned up; and the
    two infrastructure machines are cleaned documents, on which cleaning
    again changes nothing (so without status or server-side metadata). *)
Theorem createRequest_sends_clean_objects
    (c : Client) (machine : clusterv1.Machine) (res : UpToDateResult)
    (req : CanUpdateMachineRequest) :
  createRequest c machine res = Return (Ok req) ->
  Machine (Current req) = cleanupMachine machine /\
  (exists dm dm' : clusterv1.Machine,
      DesiredMachine res = Some dm /\ ssa_Patch_Machine c dm = Ok dm' /\
      Machine (Desired req) = cleanupMachine dm') /\
  (exists u : unstructured.Unstructured,
      Object (InfrastructureMachine (Current req)) = Some (OfUnstructured u) /\
      cleanupUnstructured u = u) /\
  (exists u : unstructured.Unstructured,
      Object (InfrastructureMachine (Desired req)) = Some (OfUnstructured u) /\
      cleanupUnstructured u = u).
Proof. apply createRequest_clean. Qed.
End Documents.

(** ** Runs of the negotiation *)

Section Runs.
Context {T : APITypes} {P : Packages}.

Lemma rounds_return rc machine handlers req reasons :
  wellFormed req = true ->
  exists out,
    (canExtensionsUpdateMachine_rounds rc machine handlers req reasons).1 = Return out.
Proof.
  revert req reasons. induction handlers as [|h rest IH]; intros req reasons W; simpl.
  { by eexists. }
  unfold canExtensionsUpdateMachine_body.
  destruct (CallExtension rc CanUpdateMachine machine h req) as [resp|e]; [|by eexists].
  pose proof (applyPatchesToRequest_wellFormed req resp W) as W'.
  destruct (applyPatchesToRequest req resp) as [req' [e|]]; [by eexists|].
  simpl in W'. destruct (matchesMachine_returns req' W') as (m & rs & e & -> & _).
  destruct e as [e|]; [by eexists|]. destruct m; [by eexists|].
  specialize (IH req' rs W').
  by destruct (canExtensionsUpdateMachine_rounds rc machine rest req' rs).
Qed.

Lemma createRequest_panics c machine res :
  (exists v, createRequest c machine res = Panic v) <->
  (DesiredMachine res = None \/ CurrentInfraMachine res = None
   \/ DesiredInfraMachine res = None \/ CurrentKubeadmConfig res = None
   \/ DesiredKubeadmConfig res = None).
Proof.
  unfold createRequest.
  destruct (CurrentKubeadmConfig res), (CurrentInfraMachine res), (DesiredMachine res),
    (DesiredKubeadmConfig res), (DesiredInfraMachine res); simpl;
    (split; [intros [v Hv]; try done; tauto | intros H; try (by eexists)]);
    by destruct H as [|[|[|[|]]]].
Qed.

(** X10: the nil checks of [canUpdateMachine] are what [createRequest]
    needs.  With the five objects of the UpToDateResult there,
    [createRequest] returns, a request or an error; with a nil KubeadmConfig
    or a nil InfraMachine, current or desired, it panics on the method call
    that syncs the labels and annotations. *)
Theorem createRequest_needs_all_objects
    (c : Client) (machine : clusterv1.Machine) (res : UpToDateResult) :
  (is_Some (DesiredMachine res) /\ is_Some (CurrentInfraMachine res) /\
   is_Some (DesiredInfraMachine res) /\ is_Some (CurrentKubeadmConfig res) /\
   is_Some (DesiredKubeadmConfig res) ->
   exists out : result CanUpdateMachineRequest,
     createRequest c machine res = Return out)
  /\
  (CurrentKubeadmConfig res = None \/ DesiredKubeadmConfig res = None
   \/ CurrentInfraMachine res = None \/ DesiredInfraMachine res = None ->
   exists v : string, createRequest c machine res = Panic v).
Proof.
  split.
  - intros ([dm Hdm] & [ci Hci] & [di Hdi] & [ck Hck] & [dk Hdk]).
    destruct (createRequest c machine res) as [out|v] eqn:E; [by exists out|].
    exfalso. assert (exists v, createRequest c machine res = Panic v) as HP
        by by exists v.
    apply createRequest_panics in HP. rewrite Hdm, Hci, Hdi, Hck, Hdk in HP.
    by destruct HP as [|[|[|[|]]]].
  - intros H. apply createRequest_panics. tauto.
Qed.

(** X11: [canUpdateMachine] does not panic in its own code, the calls into
    other packages taken as returning: the nil checks of lines 61-67 keep
    [createRequest] from a nil object, and the request it builds stays well
    formed through the rounds, so [matchesMachine] never calls a method on a
    nil interface. *)
Theorem canUpdateMachine_returns
    (gates : FeatureGate) (r : KubeadmControlPlaneReconciler)
    (machine : clusterv1.Machine) (res : UpToDateResult) :
  exists (canUpdate : bool) (err : option error),
    (canUpdateMachine gates r machine res).1 = Return (canUpdate, err).
Proof.
  unfold canUpdateMachine.
  destruct (overrideCanUpdateMachineFunc r) as [f|]; [destruct (f machine res); by eauto|].
  destruct (negb (InPlaceUpdates gates)); [by eauto|].
  destruct (_ || _) eqn:N; [by eauto|].
  destruct (GetAllExtensions _ _ _) as [hs|e]; [|by eauto].
  case_bool_decide; [by eauto|]. case_bool_decide; [by eauto|].
  assert (exists out, (canExtensionsUpdateMachine r machine res hs).1 = Return out)
    as [[[b rs] e] Hout].
  { unfold canExtensionsUpdateMachine.
    destruct (overrideCanExtensionsUpdateMachine r) as [f|]; [by eexists|].
    destruct (createRequest (Client_ r) machine res) as [[req|e]|v] eqn:C.
    - apply rounds_return. by eapply createRequest_wellFormed.
    - by eexists.
    - exfalso. assert (exists v, createRequest (Client_ r) machine res = Panic v) as HP
          by by eexists.
      apply createRequest_panics in HP.
      repeat (apply orb_false_iff in N as [N ?]).
      by destruct HP as [H'|[H'|[H'|[H'|H']]]]; rewrite H' in *. }
  destruct (canExtensionsUpdateMachine r machine res hs) as [o t]. simpl in Hout. subst o.
  destruct e; [by eauto|]. destruct b; by eauto.
Qed.
(** An iteration calls its handler, once. *)
Lemma body_invoked rc machine h req :
  invoked (canExtensionsUpdateMachine_body rc machine h req).2 = [h].
Proof.
  pose proof (body_cases rc machine h req) as C.
  destruct (canExtensionsUpdateMachine_body rc machine h req) as [it tr].
  by destruct C as [(-> & _)|(? & ? & _ & _ & -> & _)].
Qed.

(** How an iteration leaves the function. *)
Lemma body_leaves rc machine h req out tr :
  canExtensionsUpdateMachine_body rc machine h req = (Leaves out, tr) ->
  out = Return (true, [], None)
  \/ (exists err, out = Return (false, [], Some err))
  \/ (exists v, out = Panic v).
Proof.
  unfold canExtensionsUpdateMachine_body.
  destruct (CallExtension _ _ _ _ _) as [resp|e]; [|intros [= <- _]; eauto].
  destruct (applyPatchesToRequest req resp) as [req' [e|]]; [intros [= <- _]; eauto|].
  destruct (matchesMachine req') as [[[m rs] [e|]]|v]; [|destruct m|];
    intros [= <- _]; eauto.
Qed.

Lemma rounds_invoked_prefix rc machine handlers req reasons :
  invoked (canExtensionsUpdateMachine_rounds rc machine handlers req reasons).2
  `prefix_of` handlers.
Proof.
  revert req reasons. induction handlers as [|h rest IH]; intros req reasons; simpl.
  { done. }
  pose proof (body_invoked rc machine h req) as B.
  destruct (canExtensionsUpdateMachine_body rc machine h req) as [[out|req1 rs1] tr];
    simpl in B.
  - simpl. rewrite B. apply prefix_cons, prefix_nil.
  - specialize (IH req1 rs1).
    destruct (canExtensionsUpdateMachine_rounds rc machine rest req1 rs1) as [o t].
    simpl in *. rewrite invoked_app, B. by apply prefix_cons.
Qed.

(** X16: [canExtensionsUpdateMachine] asks the handlers in the order it is
    given them, each at most once and none skipped: the handlers it invokes
    are a prefix of [extensionHandlers]. *)
Theorem canExtensionsUpdateMachine_invokes_in_order
    (r : KubeadmControlPlaneReconciler) (machine : clusterv1.Machine)
    (machineUpToDateResult : UpToDateResult) (extensionHandlers : list string) :
  invoked (canExtensionsUpdateMachine r machine machineUpToDateResult
             extensionHandlers).2
  `prefix_of` extensionHandlers.
Proof.
  destruct (canExtensionsUpdateMachine_cases r machine machineUpToDateResult
              extensionHandlers) as [->|(req0 & _ & _ & ->)].
  - apply prefix_nil.
  - apply rounds_invoked_prefix.
Qed.

Lemma rounds_shape rc machine handlers req reasons b rs e :
  (canExtensionsUpdateMachine_rounds rc machine handlers req reasons).1
  = Return (b, rs, e) ->
  (b = true -> rs = [] /\ e = None) /\
  (e <> None -> b = false /\ rs = []) /\
  (b = false -> e = None ->
   invoked (canExtensionsUpdateMachine_rounds rc machine handlers req reasons).2
   = handlers).
Proof.
  revert req reasons. induction handlers as [|h rest IH]; intros req reasons; simpl.
  { intros [= <- <- <-]. by split_and!. }
  pose proof (body_invoked rc machine h req) as B.
  destruct (canExtensionsUpdateMachine_body rc machine h req) as [[out|req1 rs1] tr] eqn:E;
    simpl in B.
  - apply body_leaves in E as [->|[[err ->]|[v ->]]]; simpl; [| |done].
    + intros [= <- <- <-]. by split_and!.
    + intros [= <- <- <-]. by split_and!.
  - specialize (IH req1 rs1).
    destruct (canExtensionsUpdateMachine_rounds rc machine rest req1 rs1) as [o t].
    simpl in *. intros H. destruct (IH H) as (H1 & H2 & H3).
    split_and!; [done|done|]. intros Hb He. by rewrite invoked_app, B, H3.
Qed.

(** X17: the three verdicts of [canExtensionsUpdateMachine], the function
    not being overridden.  A yes comes with no reasons and no error; an
    error comes with a no and no reasons; and a no without error is given
    only after every handler was invoked. *)
Theorem canExtensionsUpdateMachine_verdicts
    (r : KubeadmControlPlaneReconciler) (machine : clusterv1.Machine)
    (machineUpToDateResult : UpToDateResult) (extensionHandlers : list string)
    (canUpdate : bool) (reasons : list string) (err : option error) :
  let run :=
    canExtensionsUpdateMachine r machine machineUpToDateResult extensionHandlers in
  overrideCanExtensionsUpdateMachine r = None ->
  run.1 = Return (canUpdate, reasons, err) ->
  (canUpdate = true -> reasons = [] /\ err = None) /\
  (err <> None -> canUpdate = false /\ reasons = []) /\
  (canUpdate = false -> err = None -> invoked run.2 = extensionHandlers).
Proof.
  intros run HO. subst run. unfold canExtensionsUpdateMachine. rewrite HO.
  destruct (createRequest _ _ _) as [[req0|e]|v]; [| |done].
  - apply rounds_shape.
  - simpl. intros [= <- <- <-]. by split_and!.
Qed.

(** The first iteration sends the request the loop is entered with. *)
Lemma rounds_first rc machine handlers req reasons h sent :
  calls (canExtensionsUpdateMachine_rounds rc machine handlers req reasons).2 !! 0
  = Some (h, sent) ->
  sent = req.
Proof.
  intros H. apply rounds_reached in H as [_ [earlier H]].
  simpl in H. by injection H as ->.
Qed.

Lemma calls_length_invoked (trace : list Event) :
  length (calls trace) = length (invoked trace).
Proof. unfold invoked. by rewrite length_fmap. Qed.

(** Two calls in a row: the second is sent what the first one's patches
    made of the request, after a check that found a difference. *)
Lemma rounds_next rc machine handlers req reasons i h sent h' sent' :
  calls (canExtensionsUpdateMachine_rounds rc machine handlers req reasons).2 !! i
  = Some (h, sent) ->
  calls (canExtensionsUpdateMachine_rounds rc machine handlers req reasons).2 !! S i
  = Some (h', sent') ->
  exists resp rs,
    CallExtension rc CanUpdateMachine machine h sent = Ok resp /\
    applyPatchesToRequest sent resp = (sent', None) /\
    matchesMachine sent' = Return (false, rs, None).
Proof.
  intros Hi HS.
  pose proof (rounds_reached _ _ _ _ _ _ _ _ Hi) as [Hh _].
  destruct (rounds_from _ _ _ _ _ _ _ _ Hi) as (earlier & trace & Ht & _ & E).
  simpl in E. rewrite E in HS. clear E Hi. simpl in HS.
  assert (length (calls trace) = i) as L.
  { rewrite calls_length_invoked, Ht, length_take.
    apply lookup_lt_Some in Hh. lia. }
  rewrite calls_app, lookup_app_r in HS by lia.
  replace (S i - length (calls trace)) with 1 in HS by lia.
  pose proof (body_cases rc machine h sent) as C.
  destruct (canExtensionsUpdateMachine_body rc machine h sent) as [[out|req1 rs1] tr].
  - simpl in HS.
    by destruct C as [(-> & _)|(? & ? & _ & _ & -> & _)].
  - destruct C as [(_ & [? [=]] & _)|(resp & req' & HC & HA & -> & _ & -> & HM)].
    destruct (canExtensionsUpdateMachine_rounds rc machine (drop (S i) handlers) req' rs1)
      as [o t] eqn:R.
    simpl in HS.
    assert (sent' = req') as ->.
    { eapply (rounds_first rc machine (drop (S i) handlers) req' rs1 h').
      by rewrite R. }
    by exists resp, rs1.
Qed.

(** X18: the patches accumulate.  The first handler is sent the request
    [createRequest] built; and each later handler is sent the request the
    handler before it was sent, with the patches of that handler's response
    applied, the check on it having found a difference. *)
Theorem canExtensionsUpdateMachine_carries_patches_forward
    (r : KubeadmControlPlaneReconciler) (machine : clusterv1.Machine)
    (machineUpToDateResult : UpToDateResult) (extensionHandlers : list string) :
  let run :=
    canExtensionsUpdateMachine r machine machineUpToDateResult extensionHandlers in
  (forall (h : string) (sent : CanUpdateMachineRequest),
      calls run.2 !! 0 = Some (h, sent) ->
      createRequest (Client_ r) machine machineUpToDateResult = Return (Ok sent))
  /\
  (forall (i : nat) (h h' : string) (sent sent' : CanUpdateMachineRequest),
      calls run.2 !! i = Some (h, sent) ->
      calls run.2 !! S i = Some (h', sent') ->
      exists (resp : CanUpdateMachineResponse) (reasons : list string),
        CallExtension (RuntimeClient r) CanUpdateMachine machine h sent = Ok resp /\
        applyPatchesToRequest sent resp = (sent', None) /\
        matchesMachine sent' = Return (false, reasons, None)).
Proof.
  intros run. subst run.
  destruct (canExtensionsUpdateMachine_cases r machine machineUpToDateResult
              extensionHandlers) as [->|(req0 & _ & HR & ->)]; [done|].
  split.
  - intros h sent H. apply rounds_first in H. by subst.
  - intros i h h' sent sent'. apply rounds_next.
Qed.

(** What a run is when the iteration of handler [i] leaves the function. *)
Lemma rounds_cut rc machine handlers req reasons i h sent out tr :
  calls (canExtensionsUpdateMachine_rounds rc machine handlers req reasons).2 !! i
  = Some (h, sent) ->
  canExtensionsUpdateMachine_body rc machine h sent = (Leaves out, tr) ->
  let run := canExtensionsUpdateMachine_rounds rc machine handlers req reasons in
  run.1 = out /\
  invoked run.2 = take (S i) handlers /\
  last run.2 = last tr.
Proof.
  intros Hi HB.
  pose proof (body_invoked rc machine h sent) as B. rewrite HB in B. simpl in B.
  destruct (rounds_from _ _ _ _ _ _ _ _ Hi) as (earlier & trace & Ht & HS & E).
  simpl in E. rewrite HB in E. simpl. rewrite E. simpl.
  split_and!; [done| |].
  - by rewrite invoked_app, Ht, B, HS.
  - rewrite last_app. destruct (last tr) eqn:L; [done|].
    apply last_None in L. by subst.
Qed.

(** X19: a handler that fails ends the negotiation.  When the call of the
    handler at index [i] returns an error, the run returns
    [(false, nil, err)] with that very error, not wrapped; no patch is
    applied and no check made after the call, and no later handler is
    invoked. *)
Theorem canExtensionsUpdateMachine_call_failure
    (r : KubeadmControlPlaneReconciler) (machine : clusterv1.Machine)
    (machineUpToDateResult : UpToDateResult) (extensionHandlers : list string)
    (i : nat) (h : string) (sent : CanUpdateMachineRequest) (err : error) :
  let run :=
    canExtensionsUpdateMachine r machine machineUpToDateResult extensionHandlers in
  calls run.2 !! i = Some (h, sent) ->
  CallExtension (RuntimeClient r) CanUpdateMachine machine h sent = Err err ->
  run.1 = Return (false, [], Some err) /\
  invoked run.2 = take (S i) extensionHandlers /\
  last run.2 = Some (Called h sent).
Proof.
  intros run Hi HC. subst run.
  destruct (canExtensionsUpdateMachine_called _ _ _ _ _ _ _ Hi) as [req0 E].
  rewrite E in *.
  apply (rounds_cut _ _ _ _ _ _ _ _ _ [Called h sent] Hi).
  unfold canExtensionsUpdateMachine_body. by rewrite HC.
Qed.

(** X20: a response whose patches do not apply ends the negotiation.  When
    [applyPatchesToRequest] fails on the response of the handler at index
    [i], the run returns [(false, nil, err)], the error wrapped with the
    name of the handler; the check is not made, and no later handler is
    invoked. *)
Theorem canExtensionsUpdateMachine_patch_failure
    (r : KubeadmControlPlaneReconciler) (machine : clusterv1.Machine)
    (machineUpToDateResult : UpToDateResult) (extensionHandlers : list string)
    (i : nat) (h : string) (sent req' : CanUpdateMachineRequest)
    (resp : CanUpdateMachineResponse) (err : error) :
  let run :=
    canExtensionsUpdateMachine r machine machineUpToDateResult extensionHandlers in
  calls run.2 !! i = Some (h, sent) ->
  CallExtension (RuntimeClient r) CanUpdateMachine machine h sent = Ok resp ->
  applyPatchesToRequest sent resp = (req', Some err) ->
  run.1 = Return (false, [], Some (errors.Wrap err
            ("failed to apply patches from extension " +:+ h
             +:+ " to the CanUpdateMachine request"))) /\
  invoked run.2 = take (S i) extensionHandlers /\
  last run.2 = Some (Called h sent).
Proof.
  intros run Hi HC HA. subst run.
  destruct (canExtensionsUpdateMachine_called _ _ _ _ _ _ _ Hi) as [req0 E].
  rewrite E in *.
  apply (rounds_cut _ _ _ _ _ _ _ _ _ [Called h sent] Hi).
  unfold canExtensionsUpdateMachine_body. by rewrite HC, HA.
Qed.

(** X22: a comparison that fails ends the negotiation.  When
    [matchesMachine] returns an error on the request the patches of the
    handler at index [i] produced, the run returns [(false, nil, err)], the
    error wrapped with the name of the handler; that check is the last
    thing it does, and no later handler is invoked. *)
Theorem canExtensionsUpdateMachine_compare_failure
    (r : KubeadmControlPlaneReconciler) (machine : clusterv1.Machine)
    (machineUpToDateResult : UpToDateResult) (extensionHandlers : list string)
    (i : nat) (h : string) (sent req' : CanUpdateMachineRequest)
    (resp : CanUpdateMachineResponse) (matches : bool) (reasons : list string)
    (err : error) :
  let run :=
    canExtensionsUpdateMachine r machine machineUpToDateResult extensionHandlers in
  calls run.2 !! i = Some (h, sent) ->
  CallExtension (RuntimeClient r) CanUpdateMachine machine h sent = Ok resp ->
  applyPatchesToRequest sent resp = (req', None) ->
  matchesMachine req' = Return (matches, reasons, Some err) ->
  run.1 = Return (false, [], Some (errors.Wrap err
            ("failed to compare current and desired objects after calling extension "
             +:+ h))) /\
  invoked run.2 = take (S i) extensionHandlers /\
  last run.2 = Some (Checked req').
Proof.
  intros run Hi HC HA HM. subst run.
  destruct (canExtensionsUpdateMachine_called _ _ _ _ _ _ _ Hi) as [req0 E].
  rewrite E in *.
  apply (rounds_cut _ _ _ _ _ _ _ _ _ [Called h sent; Checked req'] Hi).
  unfold canExtensionsUpdateMachine_body. by rewrite HC, HA, HM.
Qed.

(** X21: what a yes of [canUpdateMachine] rests on, the function not being
    overridden.  The InPlaceUpdates gate is on, the five objects are there,
    exactly one handler is registered and [canExtensionsUpdateMachine] said
    yes for it, and the error is nil.  And when that function is not
    overridden either, the run is one call and one check: the handler was
    sent the request [createRequest] built, the patches of its response
    applied, and [matchesMachine] found the patched request converged. *)
Theorem canUpdateMachine_true_only_when
    (gates : FeatureGate) (r : KubeadmControlPlaneReconciler)
    (machine : clusterv1.Machine) (machineUpToDateResult : UpToDateResult)
    (err : option error) :
  let run := canUpdateMachine gates r machine machineUpToDateResult in
  overrideCanUpdateMachineFunc r = None ->
  run.1 = Return (true, err) ->
  err = None /\
  InPlaceUpdates gates = true /\
  (is_Some (DesiredMachine machineUpToDateResult) /\
   is_Some (CurrentInfraMachine machineUpToDateResult) /\
   is_Some (DesiredInfraMachine machineUpToDateResult) /\
   is_Some (CurrentKubeadmConfig machineUpToDateResult) /\
   is_Some (DesiredKubeadmConfig machineUpToDateResult)) /\
  exists h : string,
    GetAllExtensions (RuntimeClient r) CanUpdateMachine machine = Ok [h] /\
    (exists reasons : list string,
        (canExtensionsUpdateMachine r machine machineUpToDateResult [h]).1
        = Return (true, reasons, None)) /\
    (overrideCanExtensionsUpdateMachine r = None ->
     exists (sent req' : CanUpdateMachineRequest) (resp : CanUpdateMachineResponse),
       createRequest (Client_ r) machine machineUpToDateResult = Return (Ok sent) /\
       CallExtension (RuntimeClient r) CanUpdateMachine machine h sent = Ok resp /\
       applyPatchesToRequest sent resp = (req', None) /\
       matchesMachine req' = Return (true, [], None) /\
       run.2 = [Called h sent; Checked req']).
Proof.
  intros run HO. subst run. unfold canUpdateMachine. rewrite HO.
  destruct (InPlaceUpdates gates); simpl; [|done].
  destruct (isNil (DesiredMachine _) || _ || _ || _ || _) eqn:N; [done|].
  repeat (apply orb_false_iff in N as [N ?]).
  assert (forall A (o : option A), isNil o = false -> is_Some o) as HN
      by (intros A [a|]; [by eexists|done]).
  destruct (GetAllExtensions _ _ _) as [hs|e]; [|done].
  case_bool_decide as L0; [done|]. case_bool_decide as L1; [done|].
  destruct hs as [|h [|h' hs]]; simpl in *; [lia| |lia].
  destruct (canExtensionsUpdateMachine r machine machineUpToDateResult [h])
    as [[[[b rs] [e|]]|v] t] eqn:E; [done| |done].
  destruct b; simpl; [|done]. intros [= <-].
  split; [done|]. split; [done|]. split; [split_and!; by apply HN|].
  exists h. split_and!; [done|exists rs; by rewrite E|].
  intros HO2. unfold canExtensionsUpdateMachine in E. rewrite HO2 in E.
  destruct (createRequest _ _ _) as [[sent|e]|v]; [|done..].
  simpl in E. unfold canExtensionsUpdateMachine_body in E.
  destruct (CallExtension _ _ _ _ _) as [resp|e] eqn:HC; [|done].
  destruct (applyPatchesToRequest sent resp) as [req' [e|]] eqn:HA; [done|].
  destruct (matchesMachine req') as [[[m rs'] [e|]]|v] eqn:HM; [done| |done].
  destruct m; [|done]. injection E as <- <-.
  apply matchesMachine_true in HM as HM'. destruct HM' as (-> & _).
  by exists sent, req', resp.
Qed.
End Runs.

(** ** The properties on the example cluster *)

Import reference scenario.

Lemma applyPatchToObject_empty_patch_witness :
  applyPatchToObject document (mkPatch JSONPatchType (data "[]"))
  = (document, (false, None)) /\
  applyPatchToObject document (mkPatch JSONMergePatchType (data "{}"))
  = (document, (false, None)) /\
  applyPatchToObject document (mkPatch JSONMergePatchType [])
  = (document, (false, None)).
Proof.
  split_and!; apply applyPatchToObject_empty_patch.
  - left. split; reflexivity.
  - right. split; [reflexivity | right; reflexivity].
  - right. split; [reflexivity | left; reflexivity].
Defined.

Lemma applyPatchToObject_patchType_required_witness :
  (exists err, applyPatchToObject document noPatch = (document, (false, Some err))) /\
  (exists err,
      applyPatchToObject document (mkPatch "StrategicMergePatch" (data "{}"))
      = (document, (false, Some err))).
Proof.
  split; apply applyPatchToObject_patchType_required.
  - left. reflexivity.
  - right. split; discriminate.
Defined.

Lemma applyPatchToObject_only_spec_copied_back_witness :
  applyPatchToObject document intrusivePatch = (patchedDocument, (true, None)) /\
  exists target' : unstructured.Unstructured,
    Object patchedDocument = Some (OfUnstructured target') /\
    unstructured.GetKind target' = "DockerMachine" /\
    unstructured.GetName target' = "m1" /\
    unstructured.Object target' !! "spec" = Some (JObject {["size" := JString "large"]}).
Proof.
  assert (applyPatchToObject document intrusivePatch = (patchedDocument, (true, None)))
    as H by (vm_compute; reflexivity).
  split; [exact H|].
  destruct (applyPatchToObject_only_spec_copied_back _ _ _ H)
    as (target & patched & target' & b & spec
        & H1 & H2 & H3 & H4 & H5 & _ & H7 & _ & _ & HK & HN & _).
  exists target'. rewrite HK, HN, H7.
  vm_compute in H1. injection H1 as <-.
  destruct H2 as [[HT _]|(_ & _ & _ & HM)]; [discriminate HT|].
  vm_compute in HM. injection HM as <-.
  vm_compute in H3. injection H3 as <-.
  vm_compute in H4. injection H4 as <-.
  split_and!; [exact H5 | reflexivity | reflexivity | reflexivity].
Defined.

Lemma applyPatchToObject_panic_isolated_witness :
  applyPatchToObject (P := faulty) document intrusivePatch
  = (document,
     (false, Some ("observed a panic when applying patch: "
                   +:+ "runtime error: index out of range [0] with length 0"))) /\
  forall obj' changed err,
    applyPatchToObject document (mkPatch JSONPatchType (data "[{]")) = (obj', (changed, Some err)) ->
    obj' = document /\ changed = false.
Proof.
  split.
  - apply (proj1 (applyPatchToObject_panic_isolated (P := faulty) document intrusivePatch)).
    reflexivity.
  - apply (proj2 (applyPatchToObject_panic_isolated document _)).
Defined.

(** Four handlers: [observer] and [kubernetes] leave the InfraMachine too
    small, [resizer] closes the gap, [never] is not reached. *)
Lemma canExtensionsUpdateMachine_stops_at_convergence_witness :
  let run :=
    canExtensionsUpdateMachine (reconciler []) machine upToDateResult
      ["observer"; "kubernetes"; "resizer"; "never"] in
  run.1 = Return (true, [], None) /\
  invoked run.2 = ["observer"; "kubernetes"; "resizer"].
Proof.
  pose (resp := mkResponse noPatch noPatch infraPatch).
  pose (sent := (stateAfter ["observer"; "kubernetes"]).1).
  apply (canExtensionsUpdateMachine_stops_at_convergence
           (reconciler []) machine upToDateResult
           ["observer"; "kubernetes"; "resizer"; "never"] 2 "resizer"
           sent (applyPatchesToRequest sent resp).1 resp "" "" "").
  - vm_compute; reflexivity.
  - reflexivity.
  - vm_compute; reflexivity.
  - vm_compute; reflexivity.
  - vm_compute; reflexivity.
  - vm_compute; reflexivity.
Defined.

(** Two handlers: after [observer] the Machine and the InfraMachine differ,
    after [kubernetes] only the InfraMachine does, and only that is
    reported. *)
Lemma canExtensionsUpdateMachine_reasons_of_last_round_witness :
  let run :=
    canExtensionsUpdateMachine (reconciler []) machine upToDateResult
      ["observer"; "kubernetes"] in
  length (stateAfter ["observer"]).2 = 2 /\
  run.1 = Return (false, (stateAfter ["observer"; "kubernetes"]).2, None) /\
  length (stateAfter ["observer"; "kubernetes"]).2 = 1 /\
  invoked run.2 = ["observer"; "kubernetes"].
Proof.
  pose (resp := mkResponse machinePatch noPatch noPatch).
  pose (sent := (stateAfter ["observer"]).1).
  assert (length (stateAfter ["observer"]).2 = 2) as L1 by reflexivity.
  assert (length (stateAfter ["observer"; "kubernetes"]).2 = 1) as L2 by reflexivity.
  destruct (canExtensionsUpdateMachine_reasons_of_last_round
              (reconciler []) machine upToDateResult
              ["observer"; "kubernetes"] 1 "kubernetes"
              sent (applyPatchesToRequest sent resp).1 resp
              (stateAfter ["observer"; "kubernetes"]).2) as [R I].
  - reflexivity.
  - vm_compute; reflexivity.
  - reflexivity.
  - vm_compute; reflexivity.
  - vm_compute; reflexivity.
  - by split_and!.
Defined.

(** A Machine with nothing to update: the built request already matches,
    and still no handler means not eligible. *)
Lemma canExtensionsUpdateMachine_checks_after_call_witness :
  matchesMachine (built settled) = Return (true, [], None) /\
  canExtensionsUpdateMachine (reconciler []) machine settled []
  = (Return (false, [], None), []).
Proof.
  split; [vm_compute; reflexivity|].
  apply (proj2 (proj2 (canExtensionsUpdateMachine_checks_after_call
                         (reconciler []) machine settled [])
                  eq_refl) (built settled)).
  - vm_compute; reflexivity.
  - reflexivity.
Defined.

(** C10 as stated fails for a reconciler with
    [overrideCanExtensionsUpdateMachine] set: the answer is the override's,
    [true] with no handler invoked and no check made, also with no handler
    in the list.  And with no handler and the InfraMachine deleted the
    function does not return [(false, nil, nil)]: [createRequest] comes
    first, and panics. *)
Lemma canExtensionsUpdateMachine_checks_after_call_overridden :
  overrideCanExtensionsUpdateMachine overridden <> None /\
  canExtensionsUpdateMachine overridden machine settled ["observer"]
  = (Return (true, [], None), []) /\
  canExtensionsUpdateMachine overridden machine settled []
  = (Return (true, [], None), []) /\
  (canExtensionsUpdateMachine overridden machine settled []).1
  <> Return (false, [], None) /\
  overrideCanExtensionsUpdateMachine (reconciler []) = None /\
  exists v : string,
    canExtensionsUpdateMachine (reconciler []) machine incomplete [] = (Panic v, []).
Proof.
  split_and!; [discriminate | reflexivity | reflexivity | discriminate | reflexivity |].
  eexists. reflexivity.
Qed.

Lemma canUpdateMachine_ineligible_witness :
  (canUpdateMachine disabled (reconciler ["resizer"]) machine upToDateResult).1
  = Return (false, None) /\
  (canUpdateMachine enabled (reconciler ["resizer"]) machine incomplete).1
  = Return (false, None) /\
  (canUpdateMachine enabled (reconciler []) machine upToDateResult).1
  = Return (false, None) /\
  (canUpdateMachine enabled (reconciler ["observer"]) machine upToDateResult).1
  = Return (false, None).
Proof.
  split_and!; apply canUpdateMachine_ineligible; try reflexivity.
  - left. reflexivity.
  - right. left. right. left. reflexivity.
  - right. right. left. reflexivity.
  - right. right. right.
    exists "observer", (stateAfter ["observer"]).2,
      (canExtensionsUpdateMachine (reconciler ["observer"]) machine upToDateResult
         ["observer"]).2.
    split; [reflexivity | vm_compute; reflexivity].
Defined.

(** C1 as stated fails for a reconciler with [overrideCanUpdateMachineFunc]
    set: the gate is off, and the answer is the override's. *)
Lemma canUpdateMachine_ineligible_overridden :
  overrideCanUpdateMachineFunc stubbed <> None /\
  InPlaceUpdates disabled = false /\
  (canUpdateMachine disabled stubbed machine upToDateResult).1 = Return (true, None) /\
  (canUpdateMachine disabled stubbed machine upToDateResult).1 <> Return (false, None).
Proof. split_and!; [discriminate | reflexivity | reflexivity | discriminate]. Qed.

Lemma canUpdateMachine_multiple_handlers_witness :
  exists err,
    canUpdateMachine enabled (reconciler ["observer"; "resizer"]) machine upToDateResult
    = (Return (false, Some err), []).
Proof.
  apply (canUpdateMachine_multiple_handlers enabled
           (reconciler ["observer"; "resizer"]) machine upToDateResult
           ["observer"; "resizer"]); try reflexivity; try (by eexists).
  simpl. lia.
Defined.

(** C2 as stated fails when the gate is off, and when an object is missing:
    two handlers are registered, and the answer is [(false, nil)]. *)
Lemma canUpdateMachine_multiple_handlers_not_reached :
  GetAllExtensions (RuntimeClient (reconciler ["observer"; "resizer"]))
    CanUpdateMachine machine
  = Ok ["observer"; "resizer"] /\
  canUpdateMachine disabled (reconciler ["observer"; "resizer"]) machine upToDateResult
  = (Return (false, None), []) /\
  canUpdateMachine enabled (reconciler ["observer"; "resizer"]) machine incomplete
  = (Return (false, None), []).
Proof. split_and!; reflexivity. Qed.

(** ** More properties on the example cluster *)

Import incidents.

Lemma reference_Diff_total (a b : Object_) : (compare_Diff a b).2 = None.
Proof. simpl. unfold Diff. by case_bool_decide. Defined.

(** The intrusive patch changes the document, and is reported; a merge patch
    that changes nothing is reported as well. *)
Lemma applyPatchToObject_changes_only_when_reported_witness :
  (applyPatchToObject document intrusivePatch).1 <> document /\
  (applyPatchToObject document intrusivePatch).2.1 = true /\
  applyPatchToObject document (mkPatch JSONMergePatchType (data "{ }"))
  = (document, (true, None)).
Proof.
  assert (applyPatchToObject document intrusivePatch = (patchedDocument, (true, None)))
    as H by (vm_compute; reflexivity).
  assert (patchedDocument <> document) as N.
  { intros E. apply (f_equal (fun d => bool_decide (Raw d = Raw document))) in E.
    vm_compute in E. discriminate E. }
  pose proof (applyPatchToObject_changes_only_when_reported document intrusivePatch) as C.
  rewrite H in C. destruct C as (C & _).
  rewrite H. split_and!; [exact N | exact (C N) | vm_compute; reflexivity].
Defined.

(** The response of [observer] defines no patch: nothing is touched. *)
Lemma applyPatchesToRequest_frame_witness :
  Current (applyPatchesToRequest (built upToDateResult)
             (mkResponse noPatch noPatch noPatch)).1
  = Current (built upToDateResult).
Proof.
  destruct (applyPatchesToRequest_frame (built upToDateResult)
              (mkResponse noPatch noPatch noPatch)) as (H1 & H2 & H3 & _).
  specialize (H1 eq_refl). specialize (H2 eq_refl). specialize (H3 eq_refl).
  destruct (Current (applyPatchesToRequest (built upToDateResult)
                       (mkResponse noPatch noPatch noPatch)).1) as [m b i].
  destruct (Current (built upToDateResult)) as [m0 b0 i0].
  simpl in H1, H2, H3. by rewrite H1, H2, H3.
Defined.

Lemma request_stays_wellFormed_witness :
  wellFormed (built upToDateResult) = true /\
  wellFormed (applyPatchesToRequest (built upToDateResult)
                (mkResponse machinePatch noPatch infraPatch)).1 = true.
Proof.
  assert (createRequest tt machine upToDateResult = Return (Ok (built upToDateResult)))
    as H by (vm_compute; reflexivity).
  pose proof (proj1 (request_stays_wellFormed (P := packages))
                tt machine upToDateResult _ H) as W.
  split; [exact W|].
  exact (proj2 (request_stays_wellFormed (P := packages)) _
           (mkResponse machinePatch noPatch infraPatch) W).
Defined.

(** The InfraMachine was deleted. *)
Lemma createRequest_needs_all_objects_witness :
  (exists out, createRequest tt machine upToDateResult = Return out) /\
  (exists v, createRequest tt machine incomplete = Panic v).
Proof.
  split.
  - apply (proj1 (createRequest_needs_all_objects (P := packages)
                    tt machine upToDateResult)).
    split_and!; by eexists.
  - apply (proj2 (createRequest_needs_all_objects (P := packages)
                    tt machine incomplete)).
    right. right. left. reflexivity.
Defined.

Lemma matchesMachine_returns_on_wellFormed_witness :
  exists (m : bool) (reasons : list string),
    matchesMachine (built upToDateResult) = Return (m, reasons, None).
Proof.
  destruct (matchesMachine_returns_on_wellFormed (built upToDateResult))
    as (m & rs & e & H & He).
  - vm_compute; reflexivity.
  - exists m, rs. rewrite <- (He reference_Diff_total). exact H.
Defined.

(** The Machine of the request under another name and with other labels:
    the answer is the same. *)
Lemma matchesMachine_looks_at_specs_only_witness :
  metav1.Name (clusterv1.ObjectMeta (Machine (Current relabelled))) = "other" /\
  matchesMachine (built upToDateResult) = matchesMachine relabelled.
Proof.
  split; [reflexivity|].
  apply (matchesMachine_looks_at_specs_only (built upToDateResult) relabelled);
    vm_compute; reflexivity.
Defined.

Lemma createRequest_sends_clean_objects_witness :
  Machine (Current (built upToDateResult)) = cleanupMachine machine.
Proof.
  refine (proj1 (createRequest_sends_clean_objects tt machine upToDateResult
                   (built upToDateResult) _)).
  vm_compute; reflexivity.
Defined.

(** Two handlers that do not close the gap: a no without error, after both
    were asked. *)
Lemma canExtensionsUpdateMachine_verdicts_witness :
  invoked (canExtensionsUpdateMachine (reconciler []) machine upToDateResult
             ["observer"; "kubernetes"]).2
  = ["observer"; "kubernetes"].
Proof.
  refine (proj2 (proj2 (canExtensionsUpdateMachine_verdicts
                          (reconciler []) machine upToDateResult
                          ["observer"; "kubernetes"] false
                          (stateAfter ["observer"; "kubernetes"]).2 None eq_refl _))
            eq_refl eq_refl).
  vm_compute; reflexivity.
Defined.

(** [kubernetes] is sent what [observer] left. *)
Lemma canExtensionsUpdateMachine_carries_patches_forward_witness :
  exists (resp : CanUpdateMachineResponse) (reasons : list string),
    CallExtension (RuntimeClient (reconciler [])) CanUpdateMachine machine "observer"
      (built upToDateResult) = Ok resp /\
    applyPatchesToRequest (built upToDateResult) resp
    = ((stateAfter ["observer"]).1, None) /\
    matchesMachine (stateAfter ["observer"]).1 = Return (false, reasons, None).
Proof.
  apply (proj2 (canExtensionsUpdateMachine_carries_patches_forward
                  (reconciler []) machine upToDateResult ["observer"; "kubernetes"])
           0 "observer" "kubernetes"); vm_compute; reflexivity.
Defined.

(** The second of three handlers is not there: the third is not asked. *)
Lemma canExtensionsUpdateMachine_call_failure_witness :
  let run :=
    canExtensionsUpdateMachine (reconciler []) machine upToDateResult
      ["observer"; "missing"; "resizer"] in
  run.1 = Return (false, [], Some "no such extension handler: missing") /\
  invoked run.2 = ["observer"; "missing"] /\
  last run.2 = Some (Called "missing" (stateAfter ["observer"]).1).
Proof.
  apply (canExtensionsUpdateMachine_call_failure
           (reconciler []) machine upToDateResult
           ["observer"; "missing"; "resizer"] 1 "missing" (stateAfter ["observer"]).1).
  - vm_compute; reflexivity.
  - reflexivity.
Defined.

(** A handler that answers with a patch that does not decode. *)
Lemma canExtensionsUpdateMachine_patch_failure_witness :
  let run :=
    canExtensionsUpdateMachine brokenReconciler machine upToDateResult
      ["broken"; "resizer"] in
  let resp := mkResponse noPatch noPatch brokenPatch in
  let err := default "" (applyPatchesToRequest (built upToDateResult) resp).2 in
  run.1 = Return (false, [], Some (errors.Wrap err
            ("failed to apply patches from extension " +:+ "broken"
             +:+ " to the CanUpdateMachine request"))) /\
  invoked run.2 = ["broken"] /\
  last run.2 = Some (Called "broken" (built upToDateResult)).
Proof.
  apply (canExtensionsUpdateMachine_patch_failure
           brokenReconciler machine upToDateResult ["broken"; "resizer"]
           0 "broken" (built upToDateResult) (built upToDateResult)
           (mkResponse noPatch noPatch brokenPatch)).
  - vm_compute; reflexivity.
  - reflexivity.
  - vm_compute; reflexivity.
Defined.

(** With a diff that fails, the first check ends the run. *)
Lemma canExtensionsUpdateMachine_compare_failure_witness :
  let run :=
    canExtensionsUpdateMachine (P := undiffable) (reconciler []) machine upToDateResult
      ["observer"; "resizer"] in
  run.1 = Return (false, [], Some (errors.Wrap
            (errors.Wrap "failed to calculate diff" "failed to match Machine")
            ("failed to compare current and desired objects after calling extension "
             +:+ "observer"))) /\
  invoked run.2 = ["observer"] /\
  last run.2 = Some (Checked (built upToDateResult)).
Proof.
  apply (canExtensionsUpdateMachine_compare_failure (P := undiffable)
           (reconciler []) machine upToDateResult ["observer"; "resizer"]
           0 "observer" (built upToDateResult) (built upToDateResult)
           (mkResponse noPatch noPatch noPatch) false []).
  - vm_compute; reflexivity.
  - reflexivity.
  - vm_compute; reflexivity.
  - vm_compute; reflexivity.
Defined.

(** One handler that resizes the InfraMachine, which is all that is wanted:
    yes, after one call and one check. *)
Lemma canUpdateMachine_true_only_when_witness :
  exists sent req' : CanUpdateMachineRequest,
    (canUpdateMachine enabled (reconciler ["resizer"]) machine resizeOnly).2
    = [Called "resizer" sent; Checked req'] /\
    matchesMachine req' = Return (true, [], None).
Proof.
  assert ((canUpdateMachine enabled (reconciler ["resizer"]) machine resizeOnly).1
          = Return (true, None)) as R by (vm_compute; reflexivity).
  destruct (canUpdateMachine_true_only_when enabled (reconciler ["resizer"])
              machine resizeOnly None eq_refl R)
    as (_ & _ & _ & h & Hh & _ & H).
  injection Hh as <-.
  destruct (H eq_refl) as (sent & req' & resp & _ & _ & _ & HM & Ht).
  exists sent, req'. exact (conj Ht HM).
Defined.
